(** * Enum definition generator: a shallow embedding and its properties

    The development follows [scripts/add_enum_to_def.py] (the command-line
    tool) and [scripts/update_definitions_with_enums.py] (the earlier script
    with the same helper functions).  Python values, the pandas operations the
    scripts use and the insertion-ordered [dict] are modelled first; the two
    scripts follow, each in a module of its own; the properties come last. *)

From Stdlib Require Import List String Ascii Bool ZArith QArith Qcanon.
From Stdlib Require Import Permutation Lia.
Import ListNotations.
Close Scope Qc_scope.
Close Scope Q_scope.
Open Scope bool_scope.
Open Scope string_scope.
Open Scope list_scope.

(** ** Scalars, exceptions and the error monad *)

(** A [float]: NaN, an infinity, or a finite value, held as the rational
    number it denotes ([0.0] and [-0.0] are one value here, as they are for
    [==] and for hashing). *)
Inductive pyfloat : Type :=
| FNaN
| FInf (negative : bool)
| FFin (q : Qc).

(** Scalars: what a cell of a data frame read from a CSV file (or built from
    Python scalars) holds, and what keys a [dict] has.  A finite [float] is
    represented by its exact rational value; a [str] is a sequence of
    characters with code points below 256. *)
Inductive scalar : Type :=
| SNone
| SBool (b : bool)
| SInt (z : Z)
| SFloat (f : pyfloat)
| SStr (s : string).

(** The exception classes the scripts raise or can meet.  The payload is what
    the f-string of the message interpolates. *)
Inductive exn : Type :=
| ValueError (enum_name : scalar)        (* Enum '..' not found in dataframe *)
| ValueError_columns (missing : list string) (* CSV missing required columns *)
| IndexError (enum_term enum_name : scalar) (* Enum term '..' not found *)
| IlocIndexError               (* single positional indexer is out-of-bounds *)
| KeyError (colname : string)
| NameError (name : string)
| TypeError
| AttributeError.

Inductive result (A : Type) : Type :=
| Ok (a : A)
| Err (e : exn).
Arguments Ok {A} a.
Arguments Err {A} e.

Definition ret {A} (a : A) : result A := Ok a.
Definition raise {A} (e : exn) : result A := Err e.
Definition bind {A B} (c : result A) (k : A -> result B) : result B :=
  match c with
  | Ok a => k a
  | Err e => Err e
  end.

Notation "x <- c ;; k" := (bind c (fun x => k))
  (at level 61, c at next level, right associativity).

(** The spec's NotFound: the requested type or term is not in the table. *)
Definition is_NotFound (e : exn) : bool :=
  match e with
  | ValueError _ | IndexError _ _ | IlocIndexError => true
  | _ => false
  end.

(** [for x in xs: body], the loop state threaded through; an exception ends
    the loop and is returned together with the state reached. *)
Fixpoint for_in {A S} (xs : list A) (body : A -> S -> result S) (s : S)
  : S * result unit :=
  match xs with
  | [] => (s, Ok tt)
  | x :: xs' =>
      match body x s with
      | Ok s' => for_in xs' body s'
      | Err e => (s, Err e)
      end
  end.

(** The same loop for a caller that only sees the value or the exception. *)
Definition for_each {A S} (xs : list A) (body : A -> S -> result S) (s : S)
  : result S :=
  match for_in xs body s with
  | (s', Ok _) => Ok s'
  | (_, Err e) => Err e
  end.

(** [try: c  except Exception: pass], for a block [c] whose only effect is
    its value: the value when [c] returns, [default] when it raises. *)
Definition try_pass {A} (c : result A) (default : A) : A :=
  match c with
  | Ok a => a
  | Err _ => default
  end.

(** ** Python values *)

(** Values of any type: scalars, the four built-in collections that
    [check_null] tests for, and an instance of any other class. *)
#[warnings="-register-all"]
Inductive pyval : Type :=
| Atom (a : scalar)
| PList (items : list pyval)
| PTuple (items : list pyval)
| PSet (items : list pyval)
| PDict (items : list (scalar * pyval))
| PObj (class_name : string).

Definition dict : Type := list (scalar * pyval).

Definition py_None : pyval := Atom SNone.
Definition py_str (s : string) : pyval := Atom (SStr s).

(** *** Equality and hashing of scalars *)

(** The class of a scalar under hashing: [True], [1] and [1.0] hash alike and
    compare equal, and so do [0.0] and [-0.0]. *)
Inductive hkey : Type :=
| KNone
| KNaN
| KInf (negative : bool)
| KNum (q : Qc)
| KStr (s : string).

Definition hash_key (a : scalar) : hkey :=
  match a with
  | SNone => KNone
  | SBool b => KNum (Q2Qc (inject_Z (if b then 1 else 0)))
  | SInt z => KNum (Q2Qc (inject_Z z))
  | SFloat FNaN => KNaN
  | SFloat (FInf s) => KInf s
  | SFloat (FFin q) => KNum q
  | SStr s => KStr s
  end.

Definition hkey_eqb (a b : hkey) : bool :=
  match a, b with
  | KNone, KNone => true
  | KNaN, KNaN => true
  | KInf s, KInf t => Bool.eqb s t
  | KNum p, KNum q => Qc_eq_bool p q
  | KStr s, KStr t => String.eqb s t
  | _, _ => false
  end.

(** Python's [a == b] on scalars: NaN is equal to nothing, itself included. *)
Definition py_eq (a b : scalar) : bool :=
  match hash_key a, hash_key b with
  | KNaN, _ | _, KNaN => false
  | ka, kb => hkey_eqb ka kb
  end.

(** pandas' [isna] on a scalar: [None] and NaN are the missing values. *)
Definition isna (a : scalar) : bool :=
  match a with
  | SNone | SFloat FNaN => true
  | _ => false
  end.

(** One element of [series == value]: a missing value on either side gives
    [False], anything else is compared with Python's [==]. *)
Definition series_eq (x value : scalar) : bool :=
  if isna x then false
  else if isna value then false
  else py_eq x value.

(** *** Strings *)

(** [str.isspace] on a code point below 256. *)
Definition is_space (c : ascii) : bool :=
  let n := nat_of_ascii c in
  (Nat.leb 9 n && Nat.leb n 13) || (Nat.leb 28 n && Nat.leb n 32)
  || Nat.eqb n 133 || Nat.eqb n 160.

(** [str.lower] on a code point below 256. *)
Definition lower_char (c : ascii) : ascii :=
  let n := nat_of_ascii c in
  if (Nat.leb 65 n && Nat.leb n 90)
     || (Nat.leb 192 n && Nat.leb n 222 && negb (Nat.eqb n 215))
  then ascii_of_nat (n + 32)
  else c.

Fixpoint lstrip (s : string) : string :=
  match s with
  | EmptyString => EmptyString
  | String c s' => if is_space c then lstrip s' else s
  end.

Fixpoint rstrip (s : string) : string :=
  match s with
  | EmptyString => EmptyString
  | String c s' =>
      match rstrip s' with
      | EmptyString => if is_space c then EmptyString else String c EmptyString
      | r => String c r
      end
  end.

Definition strip (s : string) : string := rstrip (lstrip s).

Fixpoint lower (s : string) : string :=
  match s with
  | EmptyString => EmptyString
  | String c s' => String (lower_char c) (lower s')
  end.

(** [x in s] for a set literal of strings. *)
Definition str_in (x : string) (s : list string) : bool :=
  existsb (String.eqb x) s.

(** *** Built-ins that can raise *)

Definition is_None (v : pyval) : bool :=
  match v with
  | Atom SNone => true
  | _ => false
  end.

Definition isinstance_float (v : pyval) : bool :=
  match v with
  | Atom (SFloat _) => true
  | _ => false
  end.

Definition isinstance_str (v : pyval) : bool :=
  match v with
  | Atom (SStr _) => true
  | _ => false
  end.

(** [isinstance(value, (list, tuple, set, dict))]. *)
Definition isinstance_collection (v : pyval) : bool :=
  match v with
  | PList _ | PTuple _ | PSet _ | PDict _ => true
  | _ => false
  end.

(** [math.isnan]: a number is required. *)
Definition math_isnan (v : pyval) : result bool :=
  match v with
  | Atom (SFloat FNaN) => ret true
  | Atom (SFloat _) | Atom (SInt _) | Atom (SBool _) => ret false
  | _ => raise TypeError
  end.

(** [value.strip().lower()]: only a [str] has the methods. *)
Definition str_strip_lower (v : pyval) : result string :=
  match v with
  | Atom (SStr s) => ret (lower (strip s))
  | _ => raise AttributeError
  end.

(** [len]: strings and collections have a length. *)
Definition py_len (v : pyval) : result nat :=
  match v with
  | Atom (SStr s) => ret (String.length s)
  | PList l | PTuple l | PSet l => ret (List.length l)
  | PDict l => ret (List.length l)
  | _ => raise TypeError
  end.

(** *** The insertion-ordered [dict] *)

(** Key lookup compares with [==] (the identity shortcut of CPython, which
    lets a NaN object find itself, is not modelled: no NaN key is ever
    stored or looked up below). *)
Fixpoint dict_get (d : dict) (k : scalar) : option pyval :=
  match d with
  | [] => None
  | (k', v) :: d' => if py_eq k' k then Some v else dict_get d' k
  end.

(** [d[k] = v]: an existing key keeps its position (and its key object) and
    takes the new value; a new key goes to the end. *)
Fixpoint dict_set (d : dict) (k : scalar) (v : pyval) : dict :=
  match d with
  | [] => [(k, v)]
  | (k', v') :: d' =>
      if py_eq k' k then (k', v) :: d' else (k', v') :: dict_set d' k v
  end.

Definition dict_has (d : dict) (k : scalar) : bool :=
  match dict_get d k with
  | Some _ => true
  | None => false
  end.

(** ** Data frames *)

(** A row of the enum table: the five columns [process_enums] requires. *)
Record row : Type := mkRow {
  type_name : scalar;
  enum : scalar;
  enum_definition : scalar;
  source : scalar;
  term_id : scalar
}.

Definition DataFrame : Type := list row.

Definition columns : list string :=
  ["type_name"; "enum"; "enum_definition"; "source"; "term_id"].

(** [df[colname]] for one row; [None] when there is no such column. *)
Definition column (colname : string) : option (row -> scalar) :=
  if colname =? "type_name" then Some type_name
  else if colname =? "enum" then Some enum
  else if colname =? "enum_definition" then Some enum_definition
  else if colname =? "source" then Some source
  else if colname =? "term_id" then Some term_id
  else None.

(** [df[df[col] == value]]: the rows the boolean mask selects, in order. *)
Definition mask_eq (col : row -> scalar) (value : scalar) (df : DataFrame)
  : DataFrame :=
  filter (fun r => series_eq (col r) value) df.

(** [df.empty]. *)
Definition empty (df : DataFrame) : bool :=
  match df with
  | [] => true
  | _ => false
  end.

(** [series.iloc[0]]. *)
Definition iloc0 (series : list scalar) : result scalar :=
  match series with
  | [] => raise IlocIndexError
  | x :: _ => ret x
  end.

(** [series.unique().tolist()]: the first occurrence of every value, in
    order; the hash table holds all NaN for one value. *)
Fixpoint unique (series : list scalar) : list scalar :=
  match series with
  | [] => []
  | x :: rest =>
      x :: filter (fun y => negb (hkey_eqb (hash_key x) (hash_key y)))
             (unique rest)
  end.

(** [set(values)] is iterated in an order the program does not control: the
    order is a function the environment supplies, and all that is known of it
    is that it lists every distinct value once. *)
Definition set_order (set_iter : list scalar -> list scalar) : Prop :=
  forall l, Permutation (unique l) (set_iter l).

(** ** The files a run reads and writes *)

(** [pd.read_csv], [load_yaml] and [write_yaml] are opaque collaborators: the
    world holds what they return for the two paths, and a log of the
    documents written. *)
Record world : Type := mkWorld {
  csv_file : DataFrame;
  yaml_file : dict;
  write_log : list dict
}.

Definition write_yaml (d : dict) (w : world) : world :=
  {| csv_file := csv_file w; yaml_file := d; write_log := (write_log w ++ [d])%list |}.

(** ** scripts/add_enum_to_def.py *)

(** Calls to [logger] are left out: they change no value and raise nothing. *)
Module AddEnumToDef.

Definition null_strs : list string :=
  [EmptyString; "null"; "none"; "nan"; "n/a"; "na";
   "not available"; "not applicable"; "missing"].

Definition check_null (value : pyval) : result bool :=
  if is_None value then ret true
  else if try_pass (if isinstance_float value then math_isnan value
                    else ret false) false
  then ret true
  else
    is_null_str <- (if isinstance_str value
                    then s <- str_strip_lower value ;; ret (str_in s null_strs)
                    else ret false) ;;
    if is_null_str then ret true
    else
      is_empty <- (if isinstance_collection value
                   then n <- py_len value ;; ret (Nat.eqb n 0)
                   else ret false) ;;
      if is_empty then ret true else ret false.

Definition pull_enum (df : DataFrame) (enum_name : scalar)
  : result DataFrame :=
  let result_df := mask_eq type_name enum_name df in
  if empty result_df then raise (ValueError enum_name)
  else ret result_df.

Definition col_to_list (df : DataFrame) (colname : string)
  : result (list scalar) :=
  match column colname with
  | None => raise (KeyError colname)
  | Some col => ret (map col df)
  end.

Definition get_enum_list (df : DataFrame) (enum_name : scalar)
  : result (list scalar) :=
  result_df <- pull_enum df enum_name ;;
  col_to_list result_df "enum".

Definition get_enum_definition (df : DataFrame) (enum_name enum_term : scalar)
  : result scalar :=
  result_df <- pull_enum df enum_name ;;
  let filtered := mask_eq enum enum_term result_df in
  if empty filtered then raise (IndexError enum_term enum_name)
  else iloc0 (map enum_definition filtered).

Definition get_enum_source (df : DataFrame) (enum_name enum_term : scalar)
  : result scalar :=
  result_df <- pull_enum df enum_name ;;
  let filtered := mask_eq enum enum_term result_df in
  if empty filtered then raise (IndexError enum_term enum_name)
  else iloc0 (map source filtered).

Definition get_enum_term_id (df : DataFrame) (enum_name enum_term : scalar)
  : result scalar :=
  result_df <- pull_enum df enum_name ;;
  let filtered := mask_eq enum enum_term result_df in
  if empty filtered then raise (IndexError enum_term enum_name)
  else iloc0 (map term_id filtered).

(** One of the three guarded blocks of the loop body:
    [try: v = getter(..); if not check_null(v): enumdef[key] = v
     except Exception: (log)]. *)
Definition add_field (getter : DataFrame -> scalar -> scalar -> result scalar)
    (df : DataFrame) (enum_name enum_term : scalar) (key : string)
    (enumdef : dict) : dict :=
  try_pass
    (v <- getter df enum_name enum_term ;;
     null <- check_null (Atom v) ;;
     ret (if negb null then dict_set enumdef (SStr key) (Atom v)
          else enumdef))
    enumdef.

Definition term_record (df : DataFrame) (enum_name enum_term : scalar)
  : dict :=
  let enumdef := [(SStr "enumeration", Atom enum_term)] in
  let enumdef :=
    add_field get_enum_definition df enum_name enum_term "definition" enumdef in
  let enumdef :=
    add_field get_enum_source df enum_name enum_term "source" enumdef in
  let enumdef :=
    add_field get_enum_term_id df enum_name enum_term "term_id" enumdef in
  enumdef.

Definition construct_enum_def (df : DataFrame) (enum_name : scalar)
  : result (list pyval) :=
  enum_term_list <- get_enum_list df enum_name ;;
  for_each enum_term_list
    (fun enum_term enum_def_list =>
       let enumdef := term_record df enum_name enum_term in
       ret (enum_def_list ++ [PDict enumdef])%list)
    [].

Definition construct_enum_term_yaml_entry (df : DataFrame)
    (enum_name : scalar) (description : pyval) : result pyval :=
  enum_term_list <- get_enum_list df enum_name ;;
  enum_def_list <- construct_enum_def df enum_name ;;
  let output_dict :=
    [(SStr "description", description);
     (SStr "enum", PList (map Atom enum_term_list));
     (SStr "enumDef", PList enum_def_list)] in
  ret (PDict output_dict).

Definition required_columns : list string :=
  ["type_name"; "enum"; "enum_definition"; "source"; "term_id"].

Definition validate_csv_columns (df_columns required : list string)
  : result unit :=
  let missing_columns :=
    filter (fun c => negb (str_in c df_columns)) required in
  match missing_columns with
  | [] => ret tt
  | _ => raise (ValueError_columns missing_columns)
  end.

(** The body of the loop of [process_enums]; the [except] clause logs and
    re-raises. *)
Definition merge_step (enum_df : DataFrame) (enum_name : scalar)
    (definitions_dict : dict) : result dict :=
  entry <- construct_enum_term_yaml_entry enum_df enum_name py_None ;;
  ret (dict_set definitions_dict enum_name entry).

Definition merge_loop (set_iter : list scalar -> list scalar)
    (enum_df : DataFrame) (definitions_dict : dict) : dict * result unit :=
  let enum_to_pull_list := unique (map type_name enum_df) in
  for_in (set_iter enum_to_pull_list) (merge_step enum_df) definitions_dict.

(** [process_enums], from the loaded files on; every [except] clause of the
    outer [try] logs and re-raises. *)
Definition process_enums (set_iter : list scalar -> list scalar) (w : world)
  : world * result unit :=
  let enum_df := csv_file w in
  match validate_csv_columns columns required_columns with
  | Err e => (w, Err e)
  | Ok _ =>
      let definitions_dict := yaml_file w in
      match merge_loop set_iter enum_df definitions_dict with
      | (definitions_dict', Ok _) => (write_yaml definitions_dict' w, Ok tt)
      | (_, Err e) => (w, Err e)
      end
  end.

End AddEnumToDef.

(** ** scripts/update_definitions_with_enums.py *)

Module UpdateDefinitions.

Definition null_strs : list string :=
  [EmptyString; "null"; "none"; "nan"; "n/a"; "na";
   "not available"; "not applicable"; "missing"].

Definition check_null (value : pyval) : result bool :=
  if is_None value then ret true
  else if try_pass (if isinstance_float value then math_isnan value
                    else ret false) false
  then ret true
  else
    is_null_str <- (if isinstance_str value
                    then s <- str_strip_lower value ;; ret (str_in s null_strs)
                    else ret false) ;;
    if is_null_str then ret true
    else
      is_empty <- (if isinstance_collection value
                   then n <- py_len value ;; ret (Nat.eqb n 0)
                   else ret false) ;;
      if is_empty then ret true else ret false.

Definition pull_enum (df : DataFrame) (enum_name : scalar) : DataFrame :=
  let result_df := mask_eq type_name enum_name df in
  result_df.

Definition col_to_list (df : DataFrame) (colname : string)
  : result (list scalar) :=
  match column colname with
  | None => raise (KeyError colname)
  | Some col => ret (map col df)
  end.

Definition get_enum_list (df : DataFrame) (enum_name : scalar)
  : result (list scalar) :=
  let result_df := pull_enum df enum_name in
  col_to_list result_df "enum".

Definition get_enum_definition (df : DataFrame) (enum_name enum_term : scalar)
  : result scalar :=
  let result_df := pull_enum df enum_name in
  iloc0 (map enum_definition (mask_eq enum enum_term result_df)).

Definition get_enum_source (df : DataFrame) (enum_name enum_term : scalar)
  : result scalar :=
  let result_df := pull_enum df enum_name in
  iloc0 (map source (mask_eq enum enum_term result_df)).

Definition get_enum_term_id (df : DataFrame) (enum_name enum_term : scalar)
  : result scalar :=
  let result_df := pull_enum df enum_name in
  iloc0 (map term_id (mask_eq enum enum_term result_df)).

(** [if not check_null(getter(..)): enumdef[key] = getter(..)]: nothing is
    caught here. *)
Definition add_field (getter : DataFrame -> scalar -> scalar -> result scalar)
    (df : DataFrame) (enum_name enum_term : scalar) (key : string)
    (enumdef : dict) : result dict :=
  v <- getter df enum_name enum_term ;;
  null <- check_null (Atom v) ;;
  if negb null
  then v' <- getter df enum_name enum_term ;;
       ret (dict_set enumdef (SStr key) (Atom v'))
  else ret enumdef.

Definition term_record (df : DataFrame) (enum_name enum_term : scalar)
  : result dict :=
  let enumdef := [(SStr "enumeration", Atom enum_term)] in
  enumdef <-
    add_field get_enum_definition df enum_name enum_term "definition" enumdef ;;
  enumdef <-
    add_field get_enum_source df enum_name enum_term "source" enumdef ;;
  enumdef <-
    add_field get_enum_term_id df enum_name enum_term "term_id" enumdef ;;
  ret enumdef.

Definition construct_enum_def (df : DataFrame) (enum_name : scalar)
  : result (list pyval) :=
  enum_term_list <- get_enum_list df enum_name ;;
  for_each enum_term_list
    (fun enum_term enum_def_list =>
       enumdef <- term_record df enum_name enum_term ;;
       ret (enum_def_list ++ [PDict enumdef])%list)
    [].

Definition construct_enum_term_yaml_entry (df : DataFrame)
    (enum_name : scalar) (description : pyval) : result pyval :=
  enum_term_list <- get_enum_list df enum_name ;;
  enum_def_list <- construct_enum_def df enum_name ;;
  let output_dict :=
    [(SStr "description", description);
     (SStr "enum", PList (map Atom enum_term_list));
     (SStr "enumDef", PList enum_def_list)] in
  ret (PDict output_dict).

(** The names the module has bound to a list when its last lines run. *)
Definition global_list (enum_df : DataFrame) (name : string)
  : result (list scalar) :=
  if name =? "enum_to_pull_list" then ret (unique (map type_name enum_df))
  else raise (NameError name).

(** The module body after the definitions: the loop reads
    [enums_to_pull_list], the module binds [enum_to_pull_list]. *)
Definition module_body (set_iter : list scalar -> list scalar) (w : world)
  : world * result unit :=
  let enum_df := csv_file w in
  let definitions_dict := yaml_file w in
  match global_list enum_df "enums_to_pull_list" with
  | Err e => (w, Err e)
  | Ok names =>
      match
        for_in (set_iter names)
          (fun enum_name d =>
             entry <- construct_enum_term_yaml_entry enum_df enum_name py_None ;;
             ret (dict_set d enum_name entry))
          definitions_dict
      with
      | (definitions_dict', Ok _) => (write_yaml definitions_dict' w, Ok tt)
      | (_, Err e) => (w, Err e)
      end
  end.

End UpdateDefinitions.

(** ** add_enum_to_def.py from the command line *)

(** What a whole run can raise: the two errors of [validate_file_exists], an
    exception of a collaborator ([pd.read_csv], [load_yaml], [write_yaml],
    [json.load], the S3 client), and the exceptions of the processing
    functions. *)
Inductive run_exn : Type :=
| FileNotFoundError (file_description filepath : string)
| NotAFile (file_description filepath : string)  (* ValueError: not a file *)
| CollaboratorError (what : string)
| Processing (e : exn).

Inductive outcome (A : Type) : Type :=
| Returned (a : A)
| Raised (e : run_exn).
Arguments Returned {A} a.
Arguments Raised {A} e.

(** What [pd.read_csv] returns: the column names, and the rows seen through
    the five columns the tool reads.  When one of the five is absent the
    validation fails before any cell is read. *)
Record frame : Type := mkFrame {
  frame_columns : list string;
  frame_rows : DataFrame
}.

(** The file system and the collaborators, as functions of the path.
    [load_yaml] returns a mapping, or [None] (for an empty file); YAML
    documents of other shapes are outside this model.  [write_yaml_raises]
    tells whether a call of [write_yaml] raises. *)
Record files : Type := mkFiles {
  path_exists : string -> bool;
  path_is_file : string -> bool;
  path_str : string -> string;                       (* str(Path(p)) *)
  read_csv : string -> outcome frame;
  load_yaml : string -> outcome (option dict);
  write_yaml_raises : string -> dict -> option run_exn
}.

Module EnumCli.

(** The [Path] object is represented by the string it was made from. *)
Definition validate_file_exists (fs : files)
    (filepath file_description : string) : outcome string :=
  let path := filepath in
  if negb (path_exists fs path)
  then Raised (FileNotFoundError file_description filepath)
  else if negb (path_is_file fs path)
  then Raised (NotAFile file_description filepath)
  else Returned path.

(** [process_enums] with its two path arguments.  The state is the list of
    the calls of [write_yaml] made so far (path and document).  The length
    of the loaded document is taken for a log message: [len(None)] raises
    TypeError.  Every [except] clause logs and re-raises. *)
Definition process_enums (set_iter : list scalar -> list scalar) (fs : files)
    (enum_csv_path definitions_yaml_path : string)
    (calls : list (string * dict))
  : list (string * dict) * outcome unit :=
  match validate_file_exists fs enum_csv_path "Enum CSV file" with
  | Raised e => (calls, Raised e)
  | Returned csv_path =>
  match validate_file_exists fs definitions_yaml_path
          "Definitions YAML file" with
  | Raised e => (calls, Raised e)
  | Returned yaml_path =>
  match read_csv fs csv_path with
  | Raised e => (calls, Raised e)
  | Returned enum_df =>
  match AddEnumToDef.validate_csv_columns (frame_columns enum_df)
          AddEnumToDef.required_columns with
  | Err e => (calls, Raised (Processing e))
  | Ok _ =>
  match load_yaml fs (path_str fs yaml_path) with
  | Raised e => (calls, Raised e)
  | Returned None => (calls, Raised (Processing TypeError))
  | Returned (Some definitions_dict) =>
  match AddEnumToDef.merge_loop set_iter (frame_rows enum_df)
          definitions_dict with
  | (_, Err e) => (calls, Raised (Processing e))
  | (definitions_dict', Ok _) =>
      let calls' := calls ++ [(path_str fs yaml_path, definitions_dict')] in
      match write_yaml_raises fs (path_str fs yaml_path)
              definitions_dict' with
      | Some e => (calls', Raised e)
      | None => (calls', Returned tt)
      end
  end end end end end end.

(** [main], from the parsed arguments on: 0 when [process_enums] returns,
    1 when it raises (every [except] clause returns 1). *)
Definition main (set_iter : list scalar -> list scalar) (fs : files)
    (enum_csv definitions_yaml : string) (calls : list (string * dict))
  : list (string * dict) * Z :=
  match process_enums set_iter fs enum_csv definitions_yaml calls with
  | (calls', Returned _) => (calls', 0%Z)
  | (calls', Raised _) => (calls', 1%Z)
  end.

End EnumCli.

(** ** scripts/upload_dictionary.py *)

(** [s.startswith(p)]. *)
Fixpoint startswith (p s : string) : bool :=
  match p, s with
  | EmptyString, _ => true
  | String a p', String b s' => Ascii.eqb a b && startswith p' s'
  | String _ _, EmptyString => false
  end.

(** [s[n:]]. *)
Fixpoint slice_from (n : nat) (s : string) : string :=
  match n, s with
  | O, _ => s
  | S n', String _ s' => slice_from n' s'
  | S _, EmptyString => EmptyString
  end.

(** [c in s] for a one-character string [c]. *)
Fixpoint contains_char (c : ascii) (s : string) : bool :=
  match s with
  | EmptyString => false
  | String a s' => Ascii.eqb a c || contains_char c s'
  end.

(** [s.split(c, 1)] for a string that contains [c]: the part before the
    first [c] and the part after it. *)
Fixpoint split_once (c : ascii) (s : string) : string * string :=
  match s with
  | EmptyString => (EmptyString, EmptyString)
  | String a s' =>
      if Ascii.eqb a c then (EmptyString, s')
      else let (before, rest) := split_once c s' in (String a before, rest)
  end.

(** Truth value of a Python value. *)
Definition truthy (v : pyval) : bool :=
  match v with
  | Atom SNone => false
  | Atom (SBool b) => b
  | Atom (SInt z) => negb (Z.eqb z 0)
  | Atom (SFloat (FFin q)) => negb (Qc_eq_bool q (Q2Qc (inject_Z 0)))
  | Atom (SFloat _) => true
  | Atom (SStr s) => negb (String.eqb s EmptyString)
  | PList l | PTuple l | PSet l => negb (Nat.eqb (List.length l) 0)
  | PDict l => negb (Nat.eqb (List.length l) 0)
  | PObj _ => true
  end.

(** [a or b]. *)
Definition py_or (a b : pyval) : pyval := if truthy a then a else b.

(** [d.get(key, default)]: only a dict has the method. *)
Definition py_get (d : pyval) (key : string) (default : pyval)
  : result pyval :=
  match d with
  | PDict items =>
      match dict_get items (SStr key) with
      | Some v => ret v
      | None => ret default
      end
  | _ => raise AttributeError
  end.

(** One call of [s3_client.upload_file]. *)
Record upload_call : Type := mkUpload {
  up_file : string;
  up_bucket : string;
  up_key : string;
  up_extra_args : pyval
}.

(** The collaborators of the upload script: what [json.load] returns for
    the file at a path, and whether a call of [upload_file] raises. *)
Record services : Type := mkServices {
  json_load : string -> outcome pyval;
  upload_raises : upload_call -> option run_exn
}.

Module UploadDictionary.

Definition get_dict_version (sv : services) (dict_file_path : string)
  : outcome pyval :=
  match json_load sv dict_file_path with
  | Raised e => Raised e
  | Returned dict_data =>
      match (settings <- py_get dict_data "_settings.yaml" (PDict []) ;;
             py_get settings "_dict_version" py_None) with
      | Ok version => Returned version
      | Err e => Raised (Processing e)
      end
  end.

(** The state is the list of the calls of [upload_file] made so far.  Both
    [except] clauses log and return False. *)
Definition upload_dict_to_s3 (sv : services)
    (dict_file_path s3_target_uri : string) (dict_version : pyval)
    (calls : list upload_call) : list upload_call * bool :=
  if negb (startswith "s3://" s3_target_uri) then (calls, false)
  else
    let s3_path := slice_from (String.length "s3://") s3_target_uri in
    if negb (contains_char "/" s3_path) then (calls, false)
    else
      let (bucket, key) := split_once "/" s3_path in
      let extra_args :=
        PDict [(SStr "Metadata",
                PDict [(SStr "version",
                        py_or dict_version (py_str "unknown"))])] in
      let call := mkUpload dict_file_path bucket key extra_args in
      match upload_raises sv call with
      | Some _ => (calls ++ [call], false)
      | None => (calls ++ [call], true)
      end.

(** How [main] ends: it returns, [sys.exit] is called, or an exception
    leaves it. *)
Inductive ending : Type :=
| Completed
| Exit (code : Z)
| Uncaught (e : run_exn).

Definition main (sv : services) (argv : list string)
    (calls : list upload_call) : list upload_call * ending :=
  if negb (Nat.eqb (List.length argv) 3) then (calls, Exit 1)
  else
    let local_file_path := nth 1 argv EmptyString in
    let s3_uri := nth 2 argv EmptyString in
    match get_dict_version sv local_file_path with
    | Raised e => (calls, Uncaught e)
    | Returned dict_version =>
        if is_None dict_version then (calls, Exit 1)
        else
          match upload_dict_to_s3 sv local_file_path s3_uri dict_version
                  calls with
          | (calls', false) => (calls', Exit 1)
          | (calls', true) => (calls', Completed)
          end
    end.

End UploadDictionary.

(** ** Statements that follow the specification's words *)

(** The null vocabulary, and the null-classified values: the absent marker,
    a NaN, a string of the vocabulary after trimming and lowercasing, or an
    empty list, tuple, set or dict. *)
Definition null_vocabulary : list string :=
  [EmptyString; "null"; "none"; "nan"; "n/a"; "na";
   "not available"; "not applicable"; "missing"].

Definition null_classified (v : pyval) : Prop :=
  v = py_None
  \/ v = Atom (SFloat FNaN)
  \/ (exists s, v = py_str s /\ In (lower (strip s)) null_vocabulary)
  \/ v = PList [] \/ v = PTuple [] \/ v = PSet [] \/ v = PDict [].

(** The rows of a type: walking the table in order, keep a row when its
    [type_name] equals the requested name. *)
Fixpoint rows_for_type (table : DataFrame) (name : scalar) : DataFrame :=
  match table with
  | [] => []
  | r :: rest =>
      if series_eq (type_name r) name
      then r :: rows_for_type rest name
      else rows_for_type rest name
  end.

(** The term list of a type: the [enum] field of each of its rows, in row
    order, nothing dropped and nothing reordered. *)
Fixpoint term_list (table : DataFrame) (name : scalar) : list scalar :=
  match table with
  | [] => []
  | r :: rest =>
      if series_eq (type_name r) name
      then enum r :: term_list rest name
      else term_list rest name
  end.

(** The first row, in table order, whose [type_name] and [enum] both match. *)
Definition first_match (table : DataFrame) (name term : scalar) : option row :=
  find (fun r => series_eq (type_name r) name && series_eq (enum r) term) table.

(** The type has at least one row in the table. *)
Definition has_type (table : DataFrame) (name : scalar) : Prop :=
  exists r, In r table /\ series_eq (type_name r) name = true.

(** A merge sets every distinct type name of the table to its entry: the
    document the loop ends with holds, under every name of
    [enum_to_pull_list], the entry built for that name. *)
Definition sets_every_type (set_iter : list scalar -> list scalar)
    (table : DataFrame) (document : dict) : Prop :=
  forall name,
    In name (unique (map type_name table)) ->
    exists entry,
      AddEnumToDef.construct_enum_term_yaml_entry table name py_None
      = Ok entry
      /\ dict_get (fst (AddEnumToDef.merge_loop set_iter table document)) name
         = Some entry.

(** No row of the type has a missing ([None] or NaN) term. *)
Definition terms_present (table : DataFrame) (name : scalar) : Prop :=
  forall r, In r table -> series_eq (type_name r) name = true ->
            isna (enum r) = false.

(** No row of the table has a missing ([None] or NaN) type name. *)
Definition types_present (table : DataFrame) : Prop :=
  forall r, In r table -> isna (type_name r) = false.

(** ** Concrete tables *)

(** The two-row table of the specification's scenario. *)
Definition color_table : DataFrame :=
  [ mkRow (SStr "Color") (SStr "RED") (SStr "red color")
      (SStr EmptyString) (SStr "T1");
    mkRow (SStr "Color") (SStr "BLUE") SNone
      (SStr "src2") (SStr EmptyString) ].

(** The entry the scenario expects for type Color. *)
Definition color_entry : pyval :=
  PDict
    [(SStr "description", py_None);
     (SStr "enum", PList [py_str "RED"; py_str "BLUE"]);
     (SStr "enumDef",
      PList
        [PDict [(SStr "enumeration", py_str "RED");
                (SStr "definition", py_str "red color");
                (SStr "term_id", py_str "T1")];
         PDict [(SStr "enumeration", py_str "BLUE");
                (SStr "source", py_str "src2")]])].

(** A table as [pd.read_csv] returns it for a file whose only data line
    leaves the [enum] cell empty: the cell is NaN. *)
Definition blank_term_table : DataFrame :=
  [ mkRow (SStr "Color") (SFloat FNaN) (SStr "red color")
      (SStr "src") (SStr "T1") ].

(** A table whose second data line leaves the [type_name] cell empty. *)
Definition blank_type_table : DataFrame :=
  [ mkRow (SStr "Color") (SStr "RED") (SStr "red color")
      (SStr "src") (SStr "T1");
    mkRow (SFloat FNaN) (SStr "BLUE") (SStr "blue color")
      (SStr "src") (SStr "T2") ].

(** A definitions document with one key that is no enum type. *)
Definition sample_document : dict :=
  [(SStr "uuid", PDict [(SStr "type", py_str "string")])].

(** Two runs: one on the scenario's table, one on the table with the empty
    [type_name] cell; nothing has been written yet. *)
Definition color_world : world :=
  {| csv_file := color_table; yaml_file := sample_document; write_log := [] |}.

Definition blank_type_world : world :=
  {| csv_file := blank_type_table; yaml_file := sample_document;
     write_log := [] |}.

(** A table in which the pair (Color, RED) occurs twice, with different
    definitions. *)
Definition duplicate_table : DataFrame :=
  [ mkRow (SStr "Color") (SStr "RED") (SStr "first") SNone SNone;
    mkRow (SStr "Color") (SStr "RED") (SStr "second") SNone SNone ].

(** ** Shapes used by the further properties *)

(** An optional key of a term record: left out, or present with a value
    that [check_null] does not classify as null. *)
Definition optional_pair (key : string) (part : dict) : Prop :=
  part = []
  \/ exists v, part = [(SStr key, Atom v)]
                /\ AddEnumToDef.check_null (Atom v) = Ok false.

(** Some row of the type has a missing ([None] or NaN) term. *)
Definition term_missing (table : DataFrame) (name : scalar) : Prop :=
  exists r, In r table /\ series_eq (type_name r) name = true
            /\ isna (enum r) = true.

(** A string of whitespace characters only (the empty string included). *)
Fixpoint all_whitespace (s : string) : bool :=
  match s with
  | EmptyString => true
  | String c s' => is_space c && all_whitespace s'
  end.

(** The URI [s3://bucket/key]. *)
Definition s3_uri_of (bucket key : string) : string :=
  String.append "s3://" (String.append bucket (String "/" key)).

(** The [ExtraArgs] of an upload with the given version metadata. *)
Definition version_metadata (version : pyval) : pyval :=
  PDict [(SStr "Metadata", PDict [(SStr "version", version)])].

(** A file system for a run on the scenario's table: both paths are regular
    files, the CSV file holds [color_table], the YAML file
    [sample_document], and writing succeeds. *)
Definition color_files : files :=
  {| path_exists := fun _ => true;
     path_is_file := fun _ => true;
     path_str := fun p => p;
     read_csv := fun _ => Returned (mkFrame columns color_table);
     load_yaml := fun _ => Returned (Some sample_document);
     write_yaml_raises := fun _ _ => None |}.

(** The same with an empty YAML file. *)
Definition empty_yaml_files : files :=
  {| path_exists := fun _ => true;
     path_is_file := fun _ => true;
     path_str := fun p => p;
     read_csv := fun _ => Returned (mkFrame columns color_table);
     load_yaml := fun _ => Returned None;
     write_yaml_raises := fun _ _ => None |}.

(** A dictionary file with version 1.2.0, and an S3 client that accepts
    every upload. *)
Definition versioned_services : services :=
  {| json_load := fun _ =>
       Returned
         (PDict [(SStr "_settings.yaml",
                  PDict [(SStr "_dict_version", py_str "1.2.0")])]);
     upload_raises := fun _ => None |}.

(** [duplicate_table] with other metadata in its second row. *)
Definition duplicate_table_edited : DataFrame :=
  [ mkRow (SStr "Color") (SStr "RED") (SStr "first") SNone SNone;
    mkRow (SStr "Color") (SStr "RED") (SStr "third") (SStr "elsewhere")
      (SStr "T9") ].

(** A document that already has an entry, with a description, under Color. *)
Definition described_document : dict :=
  [(SStr "Color",
    PDict [(SStr "description", py_str "The colours we sell");
           (SStr "enum", PList [py_str "GREEN"])])].

(** A second table for the scenario's type: the Color rows of
    [color_table] with rows of another type around them. *)
Definition mixed_table : DataFrame :=
  [ mkRow (SStr "Shape") (SStr "RED") (SStr "not a color") SNone SNone;
    mkRow (SStr "Color") (SStr "RED") (SStr "red color")
      (SStr EmptyString) (SStr "T1");
    mkRow (SStr "Shape") (SStr "SQUARE") SNone SNone SNone;
    mkRow (SStr "Color") (SStr "BLUE") SNone
      (SStr "src2") (SStr EmptyString) ].

(** ** Basic facts *)

Lemma bind_Ok {A B} (c : result A) (k : A -> result B) (b : B) :
  bind c k = Ok b <-> exists a, c = Ok a /\ k a = Ok b.
Proof.
  destruct c as [a|e]; simpl; split.
  - intros H; exists a; auto.
  - intros [a' [Ha Hk]]; inversion Ha; subst; exact Hk.
  - discriminate.
  - intros [a' [Ha _]]; discriminate.
Qed.

Lemma Qc_eq_bool_refl (q : Qc) : Qc_eq_bool q q = true.
Proof.
  unfold Qc_eq_bool. destruct (Qc_eq_dec q q) as [_|n]; [reflexivity|].
  exfalso; apply n; reflexivity.
Qed.

Lemma hkey_eqb_eq (a b : hkey) : hkey_eqb a b = true <-> a = b.
Proof.
  split.
  - destruct a, b; simpl; try discriminate; intros H; try reflexivity.
    + apply Bool.eqb_prop in H; subst; reflexivity.
    + apply Qc_eq_bool_correct in H; subst; reflexivity.
    + apply String.eqb_eq in H; subst; reflexivity.
  - intros <-. destruct a; simpl; try reflexivity.
    + apply Bool.eqb_reflx.
    + apply Qc_eq_bool_refl.
    + apply String.eqb_refl.
Qed.

Lemma hkey_eqb_neq (a b : hkey) : hkey_eqb a b = false <-> a <> b.
Proof.
  rewrite <- hkey_eqb_eq. destruct (hkey_eqb a b); split; intros H;
    try discriminate; try reflexivity; auto.
  exfalso; apply H; reflexivity.
Qed.

Lemma py_eq_true (a b : scalar) :
  py_eq a b = true <-> hash_key a = hash_key b /\ hash_key a <> KNaN.
Proof.
  unfold py_eq. split.
  - intros H.
    assert (E : hkey_eqb (hash_key a) (hash_key b) = true
                /\ hash_key a <> KNaN).
    { destruct (hash_key a), (hash_key b); try discriminate;
        split; try discriminate; try exact H; reflexivity. }
    destruct E as [E N]. apply hkey_eqb_eq in E. auto.
  - intros [E N]. rewrite <- E.
    destruct (hash_key a) eqn:K; try (exfalso; apply N; reflexivity);
      apply hkey_eqb_eq; reflexivity.
Qed.

Lemma py_eq_sym (a b : scalar) : py_eq a b = py_eq b a.
Proof.
  destruct (py_eq a b) eqn:E1, (py_eq b a) eqn:E2; try reflexivity.
  - apply py_eq_true in E1. destruct E1 as [E N].
    assert (py_eq b a = true) by (apply py_eq_true; split; congruence).
    congruence.
  - apply py_eq_true in E2. destruct E2 as [E N].
    assert (py_eq a b = true) by (apply py_eq_true; split; congruence).
    congruence.
Qed.

Lemma py_eq_trans_false (k x y : scalar) :
  py_eq k x = true -> py_eq x y = false -> py_eq k y = false.
Proof.
  intros H1 H2. destruct (py_eq k y) eqn:E; [|reflexivity].
  apply py_eq_true in H1, E. destruct H1 as [E1 N1], E as [E3 _].
  assert (py_eq x y = true) by (apply py_eq_true; split; congruence).
  congruence.
Qed.

Lemma isna_hash_key (a : scalar) :
  isna a = true <-> hash_key a = KNone \/ hash_key a = KNaN.
Proof.
  destruct a as [| b | z | [| s | q] | s]; simpl; split;
    intros H; try discriminate; auto; destruct H; discriminate.
Qed.

Lemma series_eq_true (x v : scalar) :
  series_eq x v = true <->
  isna x = false /\ isna v = false /\ hash_key x = hash_key v.
Proof.
  unfold series_eq. split.
  - destruct (isna x) eqn:Ex; [discriminate|].
    destruct (isna v) eqn:Ev; [discriminate|].
    intros H. apply py_eq_true in H. tauto.
  - intros [Ex [Ev E]]. rewrite Ex, Ev. apply py_eq_true. split; [exact E|].
    intros K. assert (isna x = true) by (apply isna_hash_key; auto).
    congruence.
Qed.

Lemma series_eq_refl (x : scalar) : isna x = false -> series_eq x x = true.
Proof. intros H. apply series_eq_true. auto. Qed.

Lemma series_eq_str (s t : string) :
  series_eq (SStr s) (SStr t) = true <-> s = t.
Proof.
  rewrite series_eq_true. simpl. split.
  - intros [_ [_ E]]. inversion E; reflexivity.
  - intros ->. auto.
Qed.

(** The spec-level walks are the boolean-mask filters of the code. *)
Lemma rows_for_type_mask (df : DataFrame) (name : scalar) :
  rows_for_type df name = mask_eq type_name name df.
Proof.
  unfold mask_eq. induction df as [|r df IH]; simpl; [reflexivity|].
  rewrite IH. destruct (series_eq (type_name r) name); reflexivity.
Qed.

Lemma term_list_mask (df : DataFrame) (name : scalar) :
  term_list df name = map enum (mask_eq type_name name df).
Proof.
  unfold mask_eq. induction df as [|r df IH]; simpl; [reflexivity|].
  rewrite IH. destruct (series_eq (type_name r) name); reflexivity.
Qed.

Lemma has_type_mask (df : DataFrame) (name : scalar) :
  has_type df name <-> mask_eq type_name name df <> [].
Proof.
  unfold has_type, mask_eq. split.
  - intros [r [Hin Hm]] E.
    assert (In r (filter (fun r => series_eq (type_name r) name) df))
      by (apply filter_In; auto).
    rewrite E in H. destruct H.
  - destruct (filter (fun r => series_eq (type_name r) name) df)
      as [|r l] eqn:E; [intros H; exfalso; apply H; reflexivity|].
    intros _. exists r.
    apply filter_In with (f := fun r => series_eq (type_name r) name).
    rewrite E. left; reflexivity.
Qed.

Lemma pull_enum_has_type (df : DataFrame) (name : scalar) :
  has_type df name ->
  AddEnumToDef.pull_enum df name = Ok (mask_eq type_name name df).
Proof.
  intros H. apply has_type_mask in H. unfold AddEnumToDef.pull_enum.
  destruct (mask_eq type_name name df); [exfalso; apply H; reflexivity|].
  reflexivity.
Qed.

Lemma pull_enum_no_type (df : DataFrame) (name : scalar) :
  ~ has_type df name ->
  AddEnumToDef.pull_enum df name = Err (ValueError name).
Proof.
  intros H. unfold AddEnumToDef.pull_enum.
  destruct (mask_eq type_name name df) eqn:E; [reflexivity|].
  exfalso; apply H. apply has_type_mask. rewrite E. discriminate.
Qed.

Lemma has_type_dec (df : DataFrame) (name : scalar) :
  has_type df name \/ ~ has_type df name.
Proof.
  destruct (mask_eq type_name name df) eqn:E.
  - right. intros H. apply has_type_mask in H. auto.
  - left. apply has_type_mask. rewrite E. discriminate.
Qed.

(** [check_null] on each shape of value. *)
Lemma null_strs_vocabulary :
  AddEnumToDef.null_strs = null_vocabulary
  /\ UpdateDefinitions.null_strs = null_vocabulary.
Proof. split; reflexivity. Qed.

Lemma check_null_str (s : string) :
  AddEnumToDef.check_null (Atom (SStr s))
  = Ok (str_in (lower (strip s)) null_vocabulary).
Proof.
  rewrite <- (proj1 null_strs_vocabulary).
  unfold AddEnumToDef.check_null; cbn -[str_in].
  destruct (str_in (lower (strip s)) AddEnumToDef.null_strs); reflexivity.
Qed.

Lemma str_in_In (x : string) (l : list string) :
  str_in x l = true <-> In x l.
Proof.
  unfold str_in. rewrite existsb_exists. split.
  - intros [y [Hin E]]. apply String.eqb_eq in E. subst; exact Hin.
  - intros H. exists x. split; [exact H | apply String.eqb_refl].
Qed.

Lemma check_null_total (v : pyval) :
  exists b, AddEnumToDef.check_null v = Ok b.
Proof.
  destruct v as [[| b | z | [| s | q] | s] | l | l | l | l | c];
    try (eexists; reflexivity);
    try (destruct l; eexists; reflexivity).
  rewrite check_null_str. eexists; reflexivity.
Qed.

Lemma check_null_same (v : pyval) :
  UpdateDefinitions.check_null v = AddEnumToDef.check_null v.
Proof. reflexivity. Qed.

Lemma check_null_true (v : pyval) :
  AddEnumToDef.check_null v = Ok true <-> null_classified v.
Proof.
  unfold null_classified. split.
  - destruct v as [[| b | z | [| s | q] | s] | l | l | l | l | c];
      try (intros H; discriminate H); try (destruct l; intros H; try discriminate H);
      auto 8.
    rewrite check_null_str. intros H. inversion H as [H'].
    right; right; left. exists s. split; [reflexivity|].
    apply str_in_In. exact H'.
  - intros [H | [H | [[s [H Hs]] | [H | [H | [H | H]]]]]]; subst;
      try reflexivity.
    unfold py_str. rewrite check_null_str. apply str_in_In in Hs. rewrite Hs. reflexivity.
Qed.

(** ** The nullness classifier *)

(** C2: [check_null] returns a boolean for every value and raises for none;
    it returns true exactly on the null-classified values (None, NaN, a
    string of the null vocabulary after trimming and lowercasing, an empty
    list, tuple, set or dict) and false on every other value, among them 0,
    False, the string 0, non-empty collections and instances of other
    classes.  The two scripts have the same classifier. *)
Theorem check_null_classifies (v : pyval) :
  (exists b, AddEnumToDef.check_null v = Ok b)
  /\ (AddEnumToDef.check_null v = Ok true <-> null_classified v)
  /\ (AddEnumToDef.check_null v = Ok false <-> ~ null_classified v)
  /\ UpdateDefinitions.check_null v = AddEnumToDef.check_null v
  /\ AddEnumToDef.check_null (Atom (SInt 0)) = Ok false
  /\ AddEnumToDef.check_null (Atom (SBool false)) = Ok false
  /\ AddEnumToDef.check_null (py_str "0") = Ok false
  /\ (forall x l, AddEnumToDef.check_null (PList (x :: l)) = Ok false
                  /\ AddEnumToDef.check_null (PTuple (x :: l)) = Ok false
                  /\ AddEnumToDef.check_null (PSet (x :: l)) = Ok false)
  /\ (forall kv l, AddEnumToDef.check_null (PDict (kv :: l)) = Ok false)
  /\ (forall c, AddEnumToDef.check_null (PObj c) = Ok false).
Proof.
  split; [apply check_null_total|].
  split; [apply check_null_true|].
  split.
  { rewrite <- check_null_true.
    destruct (check_null_total v) as [[|] E]; rewrite E; split;
      intros H; try discriminate; try reflexivity; congruence. }
  split; [apply check_null_same|].
  repeat split; reflexivity.
Qed.

(** ** The table extractor *)

Section Extractor.

Variable df : DataFrame.
Variable enum_name : scalar.

Lemma rows_for_type_In (r : row) :
  In r (rows_for_type df enum_name) <->
  In r df /\ series_eq (type_name r) enum_name = true.
Proof.
  rewrite rows_for_type_mask. unfold mask_eq. apply filter_In.
Qed.

Lemma get_enum_list_has_type :
  has_type df enum_name ->
  AddEnumToDef.get_enum_list df enum_name = Ok (term_list df enum_name).
Proof.
  intros H. unfold AddEnumToDef.get_enum_list.
  rewrite (pull_enum_has_type _ _ H). simpl.
  rewrite term_list_mask. reflexivity.
Qed.

Lemma get_enum_list_no_type :
  ~ has_type df enum_name ->
  AddEnumToDef.get_enum_list df enum_name = Err (ValueError enum_name).
Proof.
  intros H. unfold AddEnumToDef.get_enum_list.
  rewrite (pull_enum_no_type _ _ H). reflexivity.
Qed.

Lemma update_get_enum_list :
  UpdateDefinitions.get_enum_list df enum_name = Ok (term_list df enum_name).
Proof.
  unfold UpdateDefinitions.get_enum_list, UpdateDefinitions.pull_enum.
  simpl. rewrite term_list_mask. reflexivity.
Qed.

(** The earlier script has no emptiness test: an absent type gives the empty
    frame there. *)
Lemma update_pull_enum_no_type :
  ~ has_type df enum_name -> UpdateDefinitions.pull_enum df enum_name = [].
Proof.
  intros H. unfold UpdateDefinitions.pull_enum.
  destruct (mask_eq type_name enum_name df) eqn:E; [reflexivity|].
  exfalso; apply H. apply has_type_mask. rewrite E. discriminate.
Qed.

(** C5: [pull_enum] returns the rows whose [type_name] equals the requested
    name, in table order, when at least one row matches, and fails with a
    NotFound error (the ValueError naming the type) when none does. *)
Theorem pull_enum_rows_or_not_found :
  (has_type df enum_name ->
   AddEnumToDef.pull_enum df enum_name = Ok (rows_for_type df enum_name)
   /\ forall r, In r (rows_for_type df enum_name) <->
                In r df /\ series_eq (type_name r) enum_name = true)
  /\ (~ has_type df enum_name ->
      AddEnumToDef.pull_enum df enum_name = Err (ValueError enum_name)
      /\ is_NotFound (ValueError enum_name) = true).
Proof.
  split.
  - intros H. split.
    + rewrite rows_for_type_mask. apply pull_enum_has_type. exact H.
    + apply rows_for_type_In.
  - intros H. split; [apply pull_enum_no_type; exact H | reflexivity].
Qed.

(** C7: for a type that has rows in the table, [get_enum_list] returns the
    [enum] field of every row of the type, in the order of the rows, one
    element per row (nothing removed, nothing sorted); both scripts agree. *)
Theorem get_enum_list_row_order :
  has_type df enum_name ->
  AddEnumToDef.get_enum_list df enum_name = Ok (term_list df enum_name)
  /\ UpdateDefinitions.get_enum_list df enum_name
     = Ok (term_list df enum_name)
  /\ term_list df enum_name = map enum (rows_for_type df enum_name).
Proof.
  intros H. split; [apply get_enum_list_has_type; exact H|].
  split; [apply update_get_enum_list|].
  rewrite term_list_mask, rows_for_type_mask. reflexivity.
Qed.

Variable enum_term : scalar.

Lemma mask_mask_find :
  match mask_eq enum enum_term (mask_eq type_name enum_name df) with
  | [] => first_match df enum_name enum_term = None
  | r :: _ => first_match df enum_name enum_term = Some r
  end.
Proof.
  unfold mask_eq, first_match. induction df as [|r l IH]; simpl; [reflexivity|].
  destruct (series_eq (type_name r) enum_name); simpl; [|exact IH].
  destruct (series_eq (enum r) enum_term); simpl; [reflexivity | exact IH].
Qed.

Lemma first_match_Some (r : row) :
  first_match df enum_name enum_term = Some r ->
  exists rest,
    mask_eq enum enum_term (mask_eq type_name enum_name df) = r :: rest
    /\ has_type df enum_name.
Proof.
  intros H. pose proof mask_mask_find as M.
  destruct (mask_eq enum enum_term (mask_eq type_name enum_name df))
    as [|r' rest] eqn:E; [congruence|].
  assert (r' = r) by congruence. subst r'.
  exists rest. split; [reflexivity|].
  apply has_type_mask. intros E'. rewrite E' in E. discriminate.
Qed.

Lemma first_match_None :
  first_match df enum_name enum_term = None ->
  mask_eq enum enum_term (mask_eq type_name enum_name df) = [].
Proof.
  intros H. pose proof mask_mask_find as M.
  destruct (mask_eq enum enum_term (mask_eq type_name enum_name df));
    [reflexivity | congruence].
Qed.

(** The three lookups of the command-line tool share one shape. *)
Lemma add_lookup_shape (field : row -> scalar) :
  (result_df <- AddEnumToDef.pull_enum df enum_name ;;
   let filtered := mask_eq enum enum_term result_df in
   if empty filtered then raise (IndexError enum_term enum_name)
   else iloc0 (map field filtered))
  = match first_match df enum_name enum_term with
    | Some r => Ok (field r)
    | None => if empty (mask_eq type_name enum_name df)
              then Err (ValueError enum_name)
              else Err (IndexError enum_term enum_name)
    end.
Proof.
  destruct (first_match df enum_name enum_term) as [r|] eqn:F.
  - destruct (first_match_Some _ F) as [rest [E H]].
    rewrite (pull_enum_has_type _ _ H). simpl. rewrite E. reflexivity.
  - apply first_match_None in F.
    unfold AddEnumToDef.pull_enum.
    destruct (mask_eq type_name enum_name df) eqn:E; [reflexivity|].
    cbv [bind ret raise]. cbn [empty]. rewrite F. reflexivity.
Qed.

Lemma update_lookup_shape (field : row -> scalar) :
  iloc0 (map field
           (mask_eq enum enum_term
              (UpdateDefinitions.pull_enum df enum_name)))
  = match first_match df enum_name enum_term with
    | Some r => Ok (field r)
    | None => Err IlocIndexError
    end.
Proof.
  unfold UpdateDefinitions.pull_enum.
  destruct (first_match df enum_name enum_term) as [r|] eqn:F.
  - destruct (first_match_Some _ F) as [rest [E _]]. rewrite E. reflexivity.
  - apply first_match_None in F. rewrite F. reflexivity.
Qed.

(** C8: each of [get_enum_definition], [get_enum_source] and
    [get_enum_term_id] returns the requested field of the first row, in table
    order, whose [type_name] and [enum] both match (rows after it, duplicates
    of the pair included, play no part), and fails with a NotFound error when
    no row matches both; this holds in both scripts. *)
Theorem lookups_return_first_match :
  match first_match df enum_name enum_term with
  | Some r =>
      AddEnumToDef.get_enum_definition df enum_name enum_term
      = Ok (enum_definition r)
      /\ AddEnumToDef.get_enum_source df enum_name enum_term = Ok (source r)
      /\ AddEnumToDef.get_enum_term_id df enum_name enum_term = Ok (term_id r)
      /\ UpdateDefinitions.get_enum_definition df enum_name enum_term
         = Ok (enum_definition r)
      /\ UpdateDefinitions.get_enum_source df enum_name enum_term
         = Ok (source r)
      /\ UpdateDefinitions.get_enum_term_id df enum_name enum_term
         = Ok (term_id r)
  | None =>
      exists e e',
        is_NotFound e = true /\ is_NotFound e' = true
        /\ AddEnumToDef.get_enum_definition df enum_name enum_term = Err e
        /\ AddEnumToDef.get_enum_source df enum_name enum_term = Err e
        /\ AddEnumToDef.get_enum_term_id df enum_name enum_term = Err e
        /\ UpdateDefinitions.get_enum_definition df enum_name enum_term
           = Err e'
        /\ UpdateDefinitions.get_enum_source df enum_name enum_term = Err e'
        /\ UpdateDefinitions.get_enum_term_id df enum_name enum_term = Err e'
  end.
Proof.
  pose proof (add_lookup_shape enum_definition) as A1.
  pose proof (add_lookup_shape source) as A2.
  pose proof (add_lookup_shape term_id) as A3.
  pose proof (update_lookup_shape enum_definition) as U1.
  pose proof (update_lookup_shape source) as U2.
  pose proof (update_lookup_shape term_id) as U3.
  unfold AddEnumToDef.get_enum_definition, AddEnumToDef.get_enum_source,
    AddEnumToDef.get_enum_term_id, UpdateDefinitions.get_enum_definition,
    UpdateDefinitions.get_enum_source, UpdateDefinitions.get_enum_term_id.
  destruct (first_match df enum_name enum_term) as [r|].
  - repeat split; assumption.
  - exists (if empty (mask_eq type_name enum_name df)
            then ValueError enum_name
            else IndexError enum_term enum_name), IlocIndexError.
    destruct (empty (mask_eq type_name enum_name df));
      repeat split; assumption.
Qed.

End Extractor.

(** The first match does not depend on the rows after it. *)
Lemma first_match_prefix (pre post : DataFrame) (r : row)
    (enum_name enum_term : scalar) :
  (forall r', In r' pre ->
     series_eq (type_name r') enum_name && series_eq (enum r') enum_term
     = false) ->
  series_eq (type_name r) enum_name = true ->
  series_eq (enum r) enum_term = true ->
  first_match (pre ++ r :: post) enum_name enum_term = Some r.
Proof.
  unfold first_match. intros Hpre Ht He.
  induction pre as [|p pre IH]; simpl.
  - rewrite Ht, He. reflexivity.
  - rewrite (Hpre p (or_introl eq_refl)). apply IH.
    intros r' Hin. apply Hpre. right; exact Hin.
Qed.

Lemma get_enum_list_row_order_witness :
  has_type color_table (SStr "Color")
  /\ AddEnumToDef.get_enum_list color_table (SStr "Color")
     = Ok [SStr "RED"; SStr "BLUE"].
Proof.
  assert (H : has_type color_table (SStr "Color")).
  { eexists. split; [left; reflexivity | reflexivity]. }
  split; [exact H|].
  exact (proj1 (get_enum_list_row_order color_table (SStr "Color") H)).
Defined.

(** ** The scenario of the specification *)

(** C9: on the two-row Color table, with no description,
    [construct_enum_term_yaml_entry] returns exactly the entry with
    description None, enum RED, BLUE and the two term records: RED with
    its definition and term id (the empty source left out), BLUE with its
    source only. *)
Theorem color_scenario :
  AddEnumToDef.construct_enum_term_yaml_entry color_table (SStr "Color")
    py_None
  = Ok color_entry.
Proof. vm_compute. reflexivity. Qed.

(** ** Loops and dictionaries *)

Lemma for_in_ext {A S} (xs : list A) (body1 body2 : A -> S -> result S) :
  (forall x s, In x xs -> body1 x s = body2 x s) ->
  forall s, for_in xs body1 s = for_in xs body2 s.
Proof.
  induction xs as [|x xs IH]; intros E s; simpl; [reflexivity|].
  rewrite (E x s (or_introl eq_refl)).
  destruct (body2 x s); [|reflexivity].
  apply IH. intros y s' Hin. apply E. right; exact Hin.
Qed.

Lemma for_each_append {A B} (f : A -> B) (xs : list A) (acc : list B) :
  for_each xs (fun x acc => ret (acc ++ [f x])) acc = Ok (acc ++ map f xs).
Proof.
  unfold for_each. revert acc.
  induction xs as [|x xs IH]; intros acc; simpl.
  - rewrite app_nil_r. reflexivity.
  - rewrite IH, <- app_assoc. reflexivity.
Qed.

Lemma py_eq_str (s t : string) : py_eq (SStr s) (SStr t) = String.eqb s t.
Proof. reflexivity. Qed.

Lemma py_eq_trans (a b c : scalar) :
  py_eq a b = true -> py_eq b c = true -> py_eq a c = true.
Proof.
  rewrite !py_eq_true. intros [E1 N1] [E2 N2]. split; congruence.
Qed.

Lemma dict_get_set_other (d : dict) (k k' : scalar) (v : pyval) :
  py_eq k k' = false -> dict_get (dict_set d k v) k' = dict_get d k'.
Proof.
  intros N. induction d as [|[k0 v0] d IH]; simpl.
  - rewrite N. reflexivity.
  - destruct (py_eq k0 k) eqn:E0; simpl.
    + rewrite (py_eq_trans_false _ _ _ E0 N). reflexivity.
    + destruct (py_eq k0 k'); [reflexivity | exact IH].
Qed.

Lemma dict_get_set_same (d : dict) (k k' : scalar) (v : pyval) :
  py_eq k k' = true -> dict_get (dict_set d k v) k' = Some v.
Proof.
  intros E. induction d as [|[k0 v0] d IH]; simpl.
  - rewrite E. reflexivity.
  - destruct (py_eq k0 k) eqn:E0; simpl.
    + rewrite (py_eq_trans _ _ _ E0 E). reflexivity.
    + destruct (py_eq k0 k') eqn:E1; [|exact IH].
      rewrite py_eq_sym in E.
      rewrite (py_eq_trans _ _ _ E1 E) in E0. discriminate.
Qed.

(** An assignment leaves every other key at its position with its value. *)
Lemma dict_set_frame (d : dict) (k : scalar) (v : pyval) (i : nat)
    (k0 : scalar) (v0 : pyval) :
  nth_error d i = Some (k0, v0) -> py_eq k0 k = false ->
  nth_error (dict_set d k v) i = Some (k0, v0).
Proof.
  revert i. induction d as [|[k1 v1] d IH]; intros i H N.
  - destruct i; discriminate.
  - simpl. destruct i as [|i]; simpl in H.
    + inversion H; subst. rewrite N. reflexivity.
    + destruct (py_eq k1 k); simpl; [exact H | apply IH; assumption].
Qed.

(** ** The entry builder *)

Section Builder.

Variable df : DataFrame.
Variable enum_name : scalar.

Lemma add_field_cases
    (getter : DataFrame -> scalar -> scalar -> result scalar)
    (enum_term : scalar) (key : string) (d : dict) :
  (exists v, getter df enum_name enum_term = Ok v
             /\ AddEnumToDef.check_null (Atom v) = Ok false
             /\ AddEnumToDef.add_field getter df enum_name enum_term key d
                = dict_set d (SStr key) (Atom v))
  \/ (AddEnumToDef.add_field getter df enum_name enum_term key d = d
      /\ forall v, getter df enum_name enum_term = Ok v ->
                   AddEnumToDef.check_null (Atom v) = Ok true).
Proof.
  unfold AddEnumToDef.add_field.
  destruct (getter df enum_name enum_term) as [v|e]; simpl.
  - destruct (check_null_total (Atom v)) as [[|] E]; rewrite E; simpl.
    + right. split; [reflexivity|]. intros v' H. inversion H; subst; exact E.
    + left. exists v. auto.
  - right. split; [reflexivity | discriminate].
Qed.

Lemma add_field_get_other
    (getter : DataFrame -> scalar -> scalar -> result scalar)
    (enum_term : scalar) (key key' : string) (d : dict) :
  String.eqb key key' = false ->
  dict_get (AddEnumToDef.add_field getter df enum_name enum_term key d)
    (SStr key')
  = dict_get d (SStr key').
Proof.
  intros N.
  destruct (add_field_cases getter enum_term key d)
    as [[v [_ [_ E]]] | [E _]]; rewrite E; [|reflexivity].
  apply dict_get_set_other. rewrite py_eq_str. exact N.
Qed.

Lemma add_field_get_same
    (getter : DataFrame -> scalar -> scalar -> result scalar)
    (enum_term : scalar) (key : string) (d : dict) (x : pyval) :
  dict_get d (SStr key) = None ->
  dict_get (AddEnumToDef.add_field getter df enum_name enum_term key d)
    (SStr key) = Some x
  <-> exists v, x = Atom v
                /\ getter df enum_name enum_term = Ok v
                /\ AddEnumToDef.check_null (Atom v) = Ok false.
Proof.
  intros Hd.
  destruct (add_field_cases getter enum_term key d)
    as [[v [G [C E]]] | [E C]]; rewrite E.
  - rewrite dict_get_set_same
      by (rewrite py_eq_str; apply String.eqb_refl).
    split.
    + intros H. inversion H; subst. exists v. auto.
    + intros [v' [-> [G' _]]]. congruence.
  - rewrite Hd. split; [discriminate|].
    intros [v [_ [G C']]]. rewrite (C v G) in C'. discriminate.
Qed.

Lemma term_record_enumeration (enum_term : scalar) :
  dict_get (AddEnumToDef.term_record df enum_name enum_term)
    (SStr "enumeration")
  = Some (Atom enum_term).
Proof.
  unfold AddEnumToDef.term_record.
  rewrite !add_field_get_other by reflexivity. reflexivity.
Qed.

Lemma construct_enum_def_map (terms : list scalar) :
  AddEnumToDef.get_enum_list df enum_name = Ok terms ->
  AddEnumToDef.construct_enum_def df enum_name
  = Ok (map (fun t => PDict (AddEnumToDef.term_record df enum_name t)) terms).
Proof.
  intros H. unfold AddEnumToDef.construct_enum_def. rewrite H. simpl.
  apply (for_each_append
           (fun t => PDict (AddEnumToDef.term_record df enum_name t))).
Qed.

Lemma construct_entry_has_type (description : pyval) :
  has_type df enum_name ->
  AddEnumToDef.construct_enum_term_yaml_entry df enum_name description
  = Ok (PDict
          [(SStr "description", description);
           (SStr "enum", PList (map Atom (term_list df enum_name)));
           (SStr "enumDef",
            PList (map (fun t =>
                          PDict (AddEnumToDef.term_record df enum_name t))
                     (term_list df enum_name)))]).
Proof.
  intros H. unfold AddEnumToDef.construct_enum_term_yaml_entry.
  rewrite (get_enum_list_has_type _ _ H). simpl.
  rewrite (construct_enum_def_map _ (get_enum_list_has_type _ _ H)).
  reflexivity.
Qed.

Lemma construct_entry_no_type (description : pyval) :
  ~ has_type df enum_name ->
  AddEnumToDef.construct_enum_term_yaml_entry df enum_name description
  = Err (ValueError enum_name).
Proof.
  intros H. unfold AddEnumToDef.construct_enum_term_yaml_entry.
  rewrite (get_enum_list_no_type _ _ H). reflexivity.
Qed.

(** C3: for a type with at least one row, the entry built by
    [construct_enum_term_yaml_entry] has an [enum] list and an [enumDef]
    list of the same length, and the record at every index of [enumDef]
    has, under [enumeration], the term at the same index of [enum]; terms
    that occur several times are no exception. *)
Theorem entry_enum_enumDef_aligned (description : pyval) :
  has_type df enum_name ->
  exists (terms : list scalar) (records : list dict),
    AddEnumToDef.construct_enum_term_yaml_entry df enum_name description
    = Ok (PDict [(SStr "description", description);
                 (SStr "enum", PList (map Atom terms));
                 (SStr "enumDef", PList (map PDict records))])
    /\ List.length terms = List.length records
    /\ forall i term,
         nth_error terms i = Some term ->
         exists record,
           nth_error records i = Some record
           /\ dict_get record (SStr "enumeration") = Some (Atom term).
Proof.
  intros H.
  exists (term_list df enum_name),
    (map (AddEnumToDef.term_record df enum_name) (term_list df enum_name)).
  split; [|split].
  - rewrite (construct_entry_has_type description H), map_map. reflexivity.
  - rewrite length_map. reflexivity.
  - intros i term Hi.
    exists (AddEnumToDef.term_record df enum_name term). split.
    + apply map_nth_error. exact Hi.
    + apply term_record_enumeration.
Qed.

(** C4: for a type whose term list exists, [construct_enum_def] returns
    (no error of a field lookup reaches its caller) one record per term, and
    the record of a term holds the key [definition] (likewise [source],
    [term_id]) exactly when the lookup of that field succeeds with a value
    that [check_null] does not classify as null; the key then holds that
    value.  A failed lookup or a null-classified value leaves the key out. *)
Theorem term_record_optional_keys (terms : list scalar) :
  AddEnumToDef.get_enum_list df enum_name = Ok terms ->
  exists records : list dict,
    AddEnumToDef.construct_enum_def df enum_name = Ok (map PDict records)
    /\ List.length records = List.length terms
    /\ forall i term,
         nth_error terms i = Some term ->
         exists record,
           nth_error records i = Some record
           /\ (forall x,
                 dict_get record (SStr "definition") = Some x <->
                 exists v, x = Atom v
                   /\ AddEnumToDef.get_enum_definition df enum_name term = Ok v
                   /\ AddEnumToDef.check_null (Atom v) = Ok false)
           /\ (forall x,
                 dict_get record (SStr "source") = Some x <->
                 exists v, x = Atom v
                   /\ AddEnumToDef.get_enum_source df enum_name term = Ok v
                   /\ AddEnumToDef.check_null (Atom v) = Ok false)
           /\ (forall x,
                 dict_get record (SStr "term_id") = Some x <->
                 exists v, x = Atom v
                   /\ AddEnumToDef.get_enum_term_id df enum_name term = Ok v
                   /\ AddEnumToDef.check_null (Atom v) = Ok false).
Proof.
  intros H.
  exists (map (AddEnumToDef.term_record df enum_name) terms).
  split; [|split].
  - rewrite (construct_enum_def_map _ H), map_map. reflexivity.
  - apply length_map.
  - intros i term Hi.
    exists (AddEnumToDef.term_record df enum_name term).
    split; [apply map_nth_error; exact Hi|].
    unfold AddEnumToDef.term_record.
    split; [|split]; intros x.
    + rewrite !add_field_get_other by reflexivity.
      apply add_field_get_same. reflexivity.
    + rewrite add_field_get_other by reflexivity.
      apply add_field_get_same.
      rewrite add_field_get_other by reflexivity. reflexivity.
    + apply add_field_get_same.
      rewrite !add_field_get_other by reflexivity. reflexivity.
Qed.

End Builder.

Lemma entry_enum_enumDef_aligned_witness :
  has_type color_table (SStr "Color")
  /\ exists (terms : list scalar) (records : list dict),
       AddEnumToDef.construct_enum_term_yaml_entry color_table (SStr "Color")
         py_None
       = Ok (PDict [(SStr "description", py_None);
                    (SStr "enum", PList (map Atom terms));
                    (SStr "enumDef", PList (map PDict records))])
       /\ List.length terms = List.length records
       /\ forall i term,
            nth_error terms i = Some term ->
            exists record,
              nth_error records i = Some record
              /\ dict_get record (SStr "enumeration") = Some (Atom term).
Proof.
  assert (H : has_type color_table (SStr "Color")).
  { eexists. split; [left; reflexivity | reflexivity]. }
  split; [exact H|].
  exact (entry_enum_enumDef_aligned color_table (SStr "Color") py_None H).
Defined.

Lemma term_record_optional_keys_witness :
  AddEnumToDef.get_enum_list color_table (SStr "Color")
  = Ok [SStr "RED"; SStr "BLUE"]
  /\ exists records : list dict,
       AddEnumToDef.construct_enum_def color_table (SStr "Color")
       = Ok (map PDict records)
       /\ List.length records = 2%nat.
Proof.
  split; [reflexivity|].
  destruct (term_record_optional_keys color_table (SStr "Color")
              [SStr "RED"; SStr "BLUE"] eq_refl) as [records [E [L _]]].
  exists records. split; [exact E | exact L].
Defined.

(** ** The two scripts build the same entry *)

Section Agreement.

Variable df : DataFrame.
Variable enum_name : scalar.

Lemma term_list_In (t : scalar) :
  In t (term_list df enum_name) ->
  exists r, In r df /\ series_eq (type_name r) enum_name = true /\ enum r = t.
Proof.
  rewrite term_list_mask. unfold mask_eq. intros H.
  apply in_map_iff in H. destruct H as [r [E Hin]].
  apply filter_In in Hin. exists r. tauto.
Qed.

Lemma first_match_exists (r : row) (t : scalar) :
  In r df -> series_eq (type_name r) enum_name = true ->
  series_eq (enum r) t = true ->
  exists r', first_match df enum_name t = Some r'.
Proof.
  intros Hin Ht He. unfold first_match.
  destruct (find _ df) as [r'|] eqn:F; [exists r'; reflexivity|].
  pose proof (find_none _ _ F r Hin) as N. simpl in N.
  rewrite Ht, He in N. discriminate.
Qed.

Lemma update_add_field_agrees
    (getterU getterA : DataFrame -> scalar -> scalar -> result scalar)
    (t v : scalar) (key : string) (d : dict) :
  getterU df enum_name t = Ok v -> getterA df enum_name t = Ok v ->
  UpdateDefinitions.add_field getterU df enum_name t key d
  = Ok (AddEnumToDef.add_field getterA df enum_name t key d).
Proof.
  intros U A. unfold UpdateDefinitions.add_field, AddEnumToDef.add_field.
  rewrite U, A. simpl. rewrite check_null_same.
  destruct (check_null_total (Atom v)) as [[|] E]; rewrite E; reflexivity.
Qed.

Lemma update_term_record_agrees (t : scalar) (r : row) :
  first_match df enum_name t = Some r ->
  UpdateDefinitions.term_record df enum_name t
  = Ok (AddEnumToDef.term_record df enum_name t).
Proof.
  intros F.
  unfold UpdateDefinitions.term_record, AddEnumToDef.term_record.
  rewrite (update_add_field_agrees UpdateDefinitions.get_enum_definition
             AddEnumToDef.get_enum_definition t (enum_definition r)).
  2: { unfold UpdateDefinitions.get_enum_definition.
       rewrite update_lookup_shape, F. reflexivity. }
  2: { unfold AddEnumToDef.get_enum_definition.
       rewrite add_lookup_shape, F. reflexivity. }
  cbn [bind].
  rewrite (update_add_field_agrees UpdateDefinitions.get_enum_source
             AddEnumToDef.get_enum_source t (source r)).
  2: { unfold UpdateDefinitions.get_enum_source.
       rewrite update_lookup_shape, F. reflexivity. }
  2: { unfold AddEnumToDef.get_enum_source.
       rewrite add_lookup_shape, F. reflexivity. }
  cbn [bind].
  rewrite (update_add_field_agrees UpdateDefinitions.get_enum_term_id
             AddEnumToDef.get_enum_term_id t (term_id r)).
  2: { unfold UpdateDefinitions.get_enum_term_id.
       rewrite update_lookup_shape, F. reflexivity. }
  2: { unfold AddEnumToDef.get_enum_term_id.
       rewrite add_lookup_shape, F. reflexivity. }
  reflexivity.
Qed.

Lemma update_construct_enum_def_agrees :
  terms_present df enum_name ->
  UpdateDefinitions.construct_enum_def df enum_name
  = Ok (map (fun t => PDict (AddEnumToDef.term_record df enum_name t))
          (term_list df enum_name)).
Proof.
  intros P. unfold UpdateDefinitions.construct_enum_def.
  rewrite update_get_enum_list. cbn [bind].
  etransitivity;
    [|exact (for_each_append
               (fun t => PDict (AddEnumToDef.term_record df enum_name t))
               (term_list df enum_name) [])].
  unfold for_each. rewrite for_in_ext with
    (body2 := fun x acc =>
       ret (acc ++ [PDict (AddEnumToDef.term_record df enum_name x)]));
    [reflexivity|].
  intros t acc Hin.
  destruct (term_list_In _ Hin) as [r [Hr [Ht Et]]].
  assert (Hna : isna (enum r) = false) by (apply (P r Hr Ht)).
  destruct (first_match_exists r t Hr Ht) as [r' F].
  { rewrite <- Et. apply series_eq_refl. exact Hna. }
  rewrite (update_term_record_agrees _ _ F). reflexivity.
Qed.

(** C10, as the code has it: for a type with at least one row, none of
    whose rows has a missing (None or NaN) term, the two scripts'
    [construct_enum_term_yaml_entry] return the same entry: the same
    description, the same enum list and the same records. *)
Theorem scripts_build_same_entry (description : pyval) :
  has_type df enum_name ->
  terms_present df enum_name ->
  UpdateDefinitions.construct_enum_term_yaml_entry df enum_name description
  = AddEnumToDef.construct_enum_term_yaml_entry df enum_name description
  /\ exists entry,
       AddEnumToDef.construct_enum_term_yaml_entry df enum_name description
       = Ok entry.
Proof.
  intros H P. rewrite (construct_entry_has_type _ _ description H).
  split; [|eexists; reflexivity].
  unfold UpdateDefinitions.construct_enum_term_yaml_entry.
  rewrite update_get_enum_list. cbn [bind].
  rewrite (update_construct_enum_def_agrees P). reflexivity.
Qed.

End Agreement.

Lemma scripts_build_same_entry_witness :
  UpdateDefinitions.construct_enum_term_yaml_entry color_table (SStr "Color")
    py_None
  = AddEnumToDef.construct_enum_term_yaml_entry color_table (SStr "Color")
      py_None
  /\ exists entry,
       AddEnumToDef.construct_enum_term_yaml_entry color_table (SStr "Color")
         py_None
       = Ok entry.
Proof.
  apply (scripts_build_same_entry color_table (SStr "Color") py_None).
  - eexists. split; [left; reflexivity | reflexivity].
  - intros r [<- | [<- | []]] _; reflexivity.
Defined.

(** C10, as it is stated, fails on a table with an empty term cell: the
    type has a row, the command-line tool returns an entry (the lookups for
    the NaN term fail and are swallowed) and the earlier script raises. *)
Lemma scripts_differ_on_blank_term :
  has_type blank_term_table (SStr "Color")
  /\ AddEnumToDef.construct_enum_term_yaml_entry blank_term_table
       (SStr "Color") py_None
     = Ok (PDict
             [(SStr "description", py_None);
              (SStr "enum", PList [Atom (SFloat FNaN)]);
              (SStr "enumDef",
               PList [PDict [(SStr "enumeration", Atom (SFloat FNaN))]])])
  /\ UpdateDefinitions.construct_enum_term_yaml_entry blank_term_table
       (SStr "Color") py_None
     = Err IlocIndexError
  /\ UpdateDefinitions.construct_enum_term_yaml_entry blank_term_table
       (SStr "Color") py_None
     <> AddEnumToDef.construct_enum_term_yaml_entry blank_term_table
          (SStr "Color") py_None.
Proof.
  split; [eexists; split; [left; reflexivity | reflexivity]|].
  split; [reflexivity|]. split; [reflexivity|]. discriminate.
Qed.

(** ** Distinct type names *)

Lemma unique_incl (l : list scalar) (x : scalar) :
  In x (unique l) -> In x l.
Proof.
  induction l as [|y l IH]; simpl; [tauto|].
  intros [H | H]; [left; exact H|].
  apply filter_In in H. right. apply IH. tauto.
Qed.

Lemma NoDup_map_filter {A B} (g : A -> B) (f : A -> bool) (l : list A) :
  NoDup (map g l) -> NoDup (map g (filter f l)).
Proof.
  induction l as [|x l IH]; simpl; intros H; [constructor|].
  inversion H as [|? ? Hx Hl]; subst.
  destruct (f x); simpl; [|apply IH; exact Hl].
  constructor; [|apply IH; exact Hl].
  intros Hin. apply Hx. apply in_map_iff in Hin.
  destruct Hin as [y [E Hy]]. apply filter_In in Hy.
  apply in_map_iff. exists y. tauto.
Qed.

Lemma unique_NoDup (l : list scalar) : NoDup (map hash_key (unique l)).
Proof.
  induction l as [|x l IH]; simpl; constructor.
  - intros Hin. apply in_map_iff in Hin. destruct Hin as [y [E Hy]].
    apply filter_In in Hy. destruct Hy as [_ Hy].
    symmetry in E. apply hkey_eqb_eq in E. rewrite E in Hy. discriminate.
  - apply NoDup_map_filter. exact IH.
Qed.

Lemma filter_all {A} (f : A -> bool) (l : list A) :
  (forall x, In x l -> f x = true) -> filter f l = l.
Proof.
  induction l as [|x l IH]; simpl; intros H; [reflexivity|].
  rewrite (H x (or_introl eq_refl)), IH; [reflexivity|].
  intros y Hy. apply H. right; exact Hy.
Qed.

Lemma unique_fixed (l : list scalar) :
  NoDup (map hash_key l) -> unique l = l.
Proof.
  induction l as [|x l IH]; simpl; intros H; [reflexivity|].
  inversion H as [|? ? Hx Hl]; subst.
  rewrite (IH Hl), filter_all; [reflexivity|].
  intros y Hy. apply negb_true_iff, hkey_eqb_neq. intros E.
  apply Hx. rewrite E. apply in_map. exact Hy.
Qed.

Section Iteration.

Variable set_iter : list scalar -> list scalar.
Hypothesis set_iter_order : set_order set_iter.
Variable df : DataFrame.

Lemma iteration_In (x : scalar) :
  In x (set_iter (unique (map type_name df))) <->
  In x (unique (map type_name df)).
Proof.
  pose proof (set_iter_order (unique (map type_name df))) as P.
  rewrite (unique_fixed _ (unique_NoDup _)) in P.
  split; intros H.
  - apply Permutation_sym in P. apply (Permutation_in _ P H).
  - apply (Permutation_in _ P H).
Qed.

Lemma iteration_NoDup :
  NoDup (map hash_key (set_iter (unique (map type_name df)))).
Proof.
  pose proof (set_iter_order (unique (map type_name df))) as P.
  apply (Permutation_NoDup (Permutation_map hash_key P)).
  apply unique_NoDup.
Qed.

Lemma iteration_row (x : scalar) :
  In x (set_iter (unique (map type_name df))) ->
  exists r, In r df /\ type_name r = x.
Proof.
  intros H. apply iteration_In, unique_incl, in_map_iff in H.
  destruct H as [r [E Hr]]. exists r. auto.
Qed.

End Iteration.

(** ** The merge loop *)

Section Merge.

Variable df : DataFrame.

Lemma merge_step_Ok (x : scalar) (d d1 : dict) :
  AddEnumToDef.merge_step df x d = Ok d1 <->
  exists entry,
    AddEnumToDef.construct_enum_term_yaml_entry df x py_None = Ok entry
    /\ d1 = dict_set d x entry.
Proof.
  unfold AddEnumToDef.merge_step. rewrite bind_Ok.
  split; intros [entry [E H]]; exists entry; split; try exact E.
  - inversion H; reflexivity.
  - subst; reflexivity.
Qed.

Lemma merge_step_Err (x : scalar) (d : dict) (e : exn) :
  AddEnumToDef.merge_step df x d = Err e <->
  AddEnumToDef.construct_enum_term_yaml_entry df x py_None = Err e.
Proof.
  unfold AddEnumToDef.merge_step.
  destruct (AddEnumToDef.construct_enum_term_yaml_entry df x py_None);
    simpl; split; intros H; try discriminate; inversion H; reflexivity.
Qed.

(** The loop touches no key that is not one of the names it iterates over,
    whether it completes or aborts. *)
Lemma merge_frame_position (xs : list scalar) :
  forall d d' res,
    for_in xs (AddEnumToDef.merge_step df) d = (d', res) ->
    forall i k v,
      nth_error d i = Some (k, v) ->
      (forall x, In x xs -> py_eq k x = false) ->
      nth_error d' i = Some (k, v).
Proof.
  induction xs as [|x xs IH]; simpl; intros d d' res H i k v Hi N.
  - inversion H; subst; exact Hi.
  - destruct (AddEnumToDef.merge_step df x d) as [d1|e] eqn:S.
    + apply merge_step_Ok in S. destruct S as [entry [_ ->]].
      apply (IH _ _ _ H).
      * apply dict_set_frame; [exact Hi | apply N; left; reflexivity].
      * intros y Hy. apply N. right; exact Hy.
    + inversion H; subst; exact Hi.
Qed.

Lemma merge_frame_get (xs : list scalar) :
  forall d d' res,
    for_in xs (AddEnumToDef.merge_step df) d = (d', res) ->
    forall k,
      (forall x, In x xs -> py_eq x k = false) ->
      dict_get d' k = dict_get d k.
Proof.
  induction xs as [|x xs IH]; simpl; intros d d' res H k N.
  - inversion H; subst; reflexivity.
  - destruct (AddEnumToDef.merge_step df x d) as [d1|e] eqn:S.
    + apply merge_step_Ok in S. destruct S as [entry [_ ->]].
      rewrite (IH _ _ _ H k) by (intros y Hy; apply N; right; exact Hy).
      apply dict_get_set_other. apply N. left; reflexivity.
    + inversion H; subst; reflexivity.
Qed.

(** The loop completes when every name has an entry, ... *)
Lemma merge_completes (xs : list scalar) :
  (forall x, In x xs ->
     exists entry,
       AddEnumToDef.construct_enum_term_yaml_entry df x py_None = Ok entry) ->
  forall d, exists d', for_in xs (AddEnumToDef.merge_step df) d = (d', Ok tt).
Proof.
  induction xs as [|x xs IH]; simpl; intros A d.
  - exists d; reflexivity.
  - destruct (A x (or_introl eq_refl)) as [entry E].
    assert (S : AddEnumToDef.merge_step df x d = Ok (dict_set d x entry))
      by (apply merge_step_Ok; exists entry; auto).
    rewrite S. apply IH. intros y Hy. apply A. right; exact Hy.
Qed.

(** ... only then, ... *)
Lemma merge_completed (xs : list scalar) :
  forall d d',
    for_in xs (AddEnumToDef.merge_step df) d = (d', Ok tt) ->
    forall x, In x xs ->
      exists entry,
        AddEnumToDef.construct_enum_term_yaml_entry df x py_None = Ok entry.
Proof.
  induction xs as [|x xs IH]; simpl; intros d d' H y Hy; [destruct Hy|].
  destruct (AddEnumToDef.merge_step df x d) as [d1|e] eqn:S;
    [|inversion H].
  destruct Hy as [<- | Hy].
  - apply merge_step_Ok in S. destruct S as [entry [E _]].
    exists entry; exact E.
  - apply (IH _ _ H y Hy).
Qed.

(** ... and stops at the first name whose entry cannot be built, with the
    document as the names before it left it. *)
Lemma merge_aborts (pre post : list scalar) (x : scalar) (e : exn) :
  forall d d1,
    for_in pre (AddEnumToDef.merge_step df) d = (d1, Ok tt) ->
    AddEnumToDef.construct_enum_term_yaml_entry df x py_None = Err e ->
    for_in (pre ++ x :: post) (AddEnumToDef.merge_step df) d = (d1, Err e).
Proof.
  induction pre as [|p pre IH]; simpl; intros d d1 H E.
  - inversion H; subst. apply merge_step_Err with (d := d1) in E.
    rewrite E. reflexivity.
  - destruct (AddEnumToDef.merge_step df p d) as [d2|e'];
      [apply IH; assumption | inversion H].
Qed.

Lemma merge_sets (xs : list scalar) :
  NoDup (map hash_key xs) ->
  (forall x, In x xs -> isna x = false) ->
  forall d d',
    for_in xs (AddEnumToDef.merge_step df) d = (d', Ok tt) ->
    forall x, In x xs ->
      exists entry,
        AddEnumToDef.construct_enum_term_yaml_entry df x py_None = Ok entry
        /\ dict_get d' x = Some entry.
Proof.
  induction xs as [|x xs IH]; simpl; intros D NA d d' H y Hy; [destruct Hy|].
  inversion D as [|? ? Hx Dxs]; subst.
  destruct (AddEnumToDef.merge_step df x d) as [d1|e] eqn:S;
    [|inversion H].
  apply merge_step_Ok in S. destruct S as [entry [E ->]].
  destruct Hy as [<- | Hy].
  - exists entry. split; [exact E|].
    rewrite (merge_frame_get _ _ _ _ H).
    + apply dict_get_set_same. apply py_eq_true. split; [reflexivity|].
      intros K. assert (isna x = true) by (apply isna_hash_key; auto).
      rewrite (NA x (or_introl eq_refl)) in H0. discriminate.
    + intros z Hz. destruct (py_eq z x) eqn:Ez; [|reflexivity].
      apply py_eq_true in Ez. destruct Ez as [Ez _].
      exfalso. apply Hx. rewrite <- Ez. apply in_map. exact Hz.
  - apply (IH Dxs (fun z Hz => NA z (or_intror Hz)) _ _ H y Hy).
Qed.

End Merge.

(** ** The merge keeps unrelated keys and sets the type names *)

Lemma present_type_has_entry (df : DataFrame) (r : row) :
  In r df -> isna (type_name r) = false ->
  exists entry,
    AddEnumToDef.construct_enum_term_yaml_entry df (type_name r) py_None
    = Ok entry.
Proof.
  intros Hr Hna. eexists. apply construct_entry_has_type.
  exists r. split; [exact Hr | apply series_eq_refl; exact Hna].
Qed.

(** C1, as the code has it: whatever the document and the table, and
    whether the loop of [process_enums] completes or aborts, every key of
    the document that equals no [type_name] of the table keeps its position
    and its value, and no key other than a [type_name] of the table is
    added; when no row has a missing (None or NaN) [type_name], the loop
    completes and the document holds, under every distinct [type_name], the
    entry built for it, whatever was there before. *)
Theorem merge_frame_and_set (set_iter : list scalar -> list scalar)
    (df : DataFrame) (d d' : dict) (res : result unit) :
  set_order set_iter ->
  AddEnumToDef.merge_loop set_iter df d = (d', res) ->
  (forall i k v,
     nth_error d i = Some (k, v) ->
     (forall r, In r df -> py_eq k (type_name r) = false) ->
     nth_error d' i = Some (k, v))
  /\ (forall k,
        (forall r, In r df -> py_eq (type_name r) k = false) ->
        dict_get d' k = dict_get d k)
  /\ (types_present df -> res = Ok tt /\ sets_every_type set_iter df d).
Proof.
  intros O M. unfold AddEnumToDef.merge_loop in M.
  split; [|split].
  - intros i k v Hi N. apply (merge_frame_position _ _ _ _ _ M i k v Hi).
    intros x Hx. destruct (iteration_row _ O _ _ Hx) as [r [Hr <-]].
    apply N; exact Hr.
  - intros k N. apply (merge_frame_get _ _ _ _ _ M).
    intros x Hx. destruct (iteration_row _ O _ _ Hx) as [r [Hr <-]].
    apply N; exact Hr.
  - intros P.
    assert (A : forall x,
               In x (set_iter (unique (map type_name df))) ->
               isna x = false
               /\ exists entry,
                    AddEnumToDef.construct_enum_term_yaml_entry df x py_None
                    = Ok entry).
    { intros x Hx. destruct (iteration_row _ O _ _ Hx) as [r [Hr <-]].
      split; [apply P; exact Hr|].
      apply present_type_has_entry; [exact Hr | apply P; exact Hr]. }
    destruct (merge_completes df _ (fun x Hx => proj2 (A x Hx)) d)
      as [d2 M2].
    rewrite M2 in M. inversion M; subst d2 res. split; [reflexivity|].
    intros name Hname. unfold AddEnumToDef.merge_loop. rewrite M2. simpl.
    apply (merge_sets df _ (iteration_NoDup _ O df)
             (fun x Hx => proj1 (A x Hx)) _ _ M2).
    apply (iteration_In _ O). exact Hname.
Qed.

Lemma merge_frame_and_set_witness :
  set_order unique
  /\ types_present color_table
  /\ nth_error
       (fst (AddEnumToDef.merge_loop unique color_table sample_document)) 0
     = Some (SStr "uuid", PDict [(SStr "type", py_str "string")])
  /\ sets_every_type unique color_table sample_document.
Proof.
  assert (O : set_order unique) by (intros l; apply Permutation_refl).
  assert (P : types_present color_table)
    by (intros r [<- | [<- | []]]; reflexivity).
  destruct (merge_frame_and_set unique color_table sample_document
              _ _ O (surjective_pairing _)) as [F [_ S]].
  split; [exact O|]. split; [exact P|]. split.
  - apply (F 0%nat). reflexivity.
    intros r [<- | [<- | []]]; reflexivity.
  - exact (proj2 (S P)).
Defined.

(** C1, as it is stated, fails on a table with an empty [type_name] cell:
    NaN is one of the distinct type names, no entry can be built for it, and
    the loop aborts with the ValueError of [pull_enum]. *)
Lemma merge_aborts_on_blank_type :
  set_order unique
  /\ In (SFloat FNaN) (unique (map type_name blank_type_table))
  /\ snd (AddEnumToDef.merge_loop unique blank_type_table sample_document)
     = Err (ValueError (SFloat FNaN))
  /\ ~ sets_every_type unique blank_type_table sample_document.
Proof.
  split; [intros l; apply Permutation_refl|].
  split; [right; left; reflexivity|].
  split; [reflexivity|].
  intros H. destruct (H (SFloat FNaN)) as [entry [E _]].
  - right; left; reflexivity.
  - discriminate E.
Qed.

(** ** Persistence *)

Lemma validate_required_columns :
  AddEnumToDef.validate_csv_columns columns AddEnumToDef.required_columns
  = Ok tt.
Proof. reflexivity. Qed.

Lemma process_enums_unfold (set_iter : list scalar -> list scalar)
    (w : world) :
  AddEnumToDef.process_enums set_iter w
  = match AddEnumToDef.merge_loop set_iter (csv_file w) (yaml_file w) with
    | (d, Ok _) => (write_yaml d w, Ok tt)
    | (_, Err e) => (w, Err e)
    end.
Proof.
  unfold AddEnumToDef.process_enums. rewrite validate_required_columns.
  reflexivity.
Qed.

(** C6: when the entry of some type cannot be built, [process_enums] ends
    with an error and the world as it found it (nothing is written), and
    the error is that of the first failing type in iteration order: the
    types after it are not processed.  When [process_enums] returns, every
    discovered type had its entry built, and the log of writes has grown by
    exactly one document, the merged one. *)
Theorem process_enums_writes_once_or_aborts
    (set_iter : list scalar -> list scalar) (w : world) :
  (forall pre x post e,
     set_iter (unique (map type_name (csv_file w))) = pre ++ x :: post ->
     (forall y, In y pre ->
        exists entry,
          AddEnumToDef.construct_enum_term_yaml_entry (csv_file w) y py_None
          = Ok entry) ->
     AddEnumToDef.construct_enum_term_yaml_entry (csv_file w) x py_None
     = Err e ->
     AddEnumToDef.process_enums set_iter w = (w, Err e))
  /\ (forall x e,
        In x (set_iter (unique (map type_name (csv_file w)))) ->
        AddEnumToDef.construct_enum_term_yaml_entry (csv_file w) x py_None
        = Err e ->
        exists e', AddEnumToDef.process_enums set_iter w = (w, Err e'))
  /\ (forall w',
        AddEnumToDef.process_enums set_iter w = (w', Ok tt) ->
        (forall x,
           In x (set_iter (unique (map type_name (csv_file w)))) ->
           exists entry,
             AddEnumToDef.construct_enum_term_yaml_entry (csv_file w) x
               py_None
             = Ok entry)
        /\ exists d,
             AddEnumToDef.merge_loop set_iter (csv_file w) (yaml_file w)
             = (d, Ok tt)
             /\ yaml_file w' = d
             /\ write_log w' = write_log w ++ [d])
  /\ (forall w' e,
        AddEnumToDef.process_enums set_iter w = (w', Err e) -> w' = w).
Proof.
  rewrite process_enums_unfold. unfold AddEnumToDef.merge_loop.
  split; [|split; [|split]].
  - intros pre x post e Hsplit Hpre Hx. rewrite Hsplit.
    destruct (merge_completes (csv_file w) pre Hpre (yaml_file w))
      as [d1 M1].
    rewrite (merge_aborts (csv_file w) pre post x e _ _ M1 Hx).
    reflexivity.
  - intros x e Hin Hx.
    destruct (for_in _ _ (yaml_file w)) as [d [[]|e']] eqn:M.
    + destruct (merge_completed _ _ _ _ M x Hin) as [entry E].
      rewrite E in Hx. discriminate.
    + exists e'. reflexivity.
  - intros w' H.
    destruct (for_in _ _ (yaml_file w)) as [d [[]|e']] eqn:M;
      [|inversion H].
    inversion H; subst w'. split.
    + intros x Hin. apply (merge_completed _ _ _ _ M x Hin).
    + exists d. auto.
  - intros w' e H.
    destruct (for_in _ _ (yaml_file w)) as [d [[]|e']];
      inversion H; reflexivity.
Qed.

(** The loop of the earlier script reads a name that the module does not
    bind: the script raises before the first iteration and writes nothing. *)
Lemma update_script_name_error (set_iter : list scalar -> list scalar)
    (w : world) :
  UpdateDefinitions.module_body set_iter w
  = (w, Err (NameError "enums_to_pull_list")).
Proof. reflexivity. Qed.

(** ** Worked runs *)

Lemma pull_enum_rows_or_not_found_witness :
  AddEnumToDef.pull_enum color_table (SStr "Color") = Ok color_table
  /\ AddEnumToDef.pull_enum color_table (SStr "Shape")
     = Err (ValueError (SStr "Shape")).
Proof.
  destruct (pull_enum_rows_or_not_found color_table (SStr "Color"))
    as [Hyes _].
  destruct (pull_enum_rows_or_not_found color_table (SStr "Shape"))
    as [_ Hno].
  split.
  - apply Hyes. eexists. split; [left; reflexivity | reflexivity].
  - apply Hno. intros [r [[<- | [<- | []]] Hm]]; discriminate Hm.
Defined.

Lemma process_enums_writes_once_or_aborts_witness :
  AddEnumToDef.process_enums unique blank_type_world
  = (blank_type_world, Err (ValueError (SFloat FNaN)))
  /\ exists d,
       AddEnumToDef.merge_loop unique color_table sample_document = (d, Ok tt)
       /\ write_log (fst (AddEnumToDef.process_enums unique color_world))
          = [d].
Proof.
  destruct (process_enums_writes_once_or_aborts unique blank_type_world)
    as [A _].
  destruct (process_enums_writes_once_or_aborts unique color_world)
    as [_ [_ [B _]]].
  split.
  - apply (A [SStr "Color"] (SFloat FNaN) []).
    + reflexivity.
    + intros y [<- | []]. eexists. reflexivity.
    + reflexivity.
  - destruct (B (fst (AddEnumToDef.process_enums unique color_world))
                eq_refl) as [_ [d [M [_ L]]]].
    exists d. split; [exact M | exact L].
Defined.

(** Case and surrounding whitespace do not matter to the vocabulary. *)
Example check_null_variations :
  AddEnumToDef.check_null (py_str "  NULL ") = Ok true
  /\ AddEnumToDef.check_null (py_str "Not Available") = Ok true
  /\ AddEnumToDef.check_null (py_str " n/a") = Ok true
  /\ AddEnumToDef.check_null (py_str "not  available") = Ok false
  /\ AddEnumToDef.check_null (py_str "nil") = Ok false.
Proof. repeat split; reflexivity. Qed.

(** A term that occurs twice gives two records, and both carry the metadata
    of the first row of the pair. *)
Example duplicate_terms :
  AddEnumToDef.construct_enum_term_yaml_entry duplicate_table (SStr "Color")
    py_None
  = Ok (PDict
          [(SStr "description", py_None);
           (SStr "enum", PList [py_str "RED"; py_str "RED"]);
           (SStr "enumDef",
            PList
              [PDict [(SStr "enumeration", py_str "RED");
                      (SStr "definition", py_str "first")];
               PDict [(SStr "enumeration", py_str "RED");
                      (SStr "definition", py_str "first")]])]).
Proof. vm_compute. reflexivity. Qed.

(** Numbers that compare equal in Python name one type and one key. *)
Example numeric_names :
  py_eq (SInt 1) (SBool true) = true
  /\ py_eq (SInt 1) (SFloat (FFin (Q2Qc (inject_Z 1)))) = true
  /\ py_eq (SInt 1) (SStr "1") = false
  /\ unique [SInt 1; SBool true; SStr "1"; SFloat FNaN; SFloat FNaN]
     = [SInt 1; SStr "1"; SFloat FNaN].
Proof. repeat split; reflexivity. Qed.

(** ** Further properties: column validation *)

(** [validate_csv_columns] passes exactly when every required column is
    among the columns of the frame; otherwise its ValueError lists the
    required columns that are absent, and only those. *)
Theorem validate_csv_columns_missing (df_columns required : list string) :
  (AddEnumToDef.validate_csv_columns df_columns required = Ok tt <->
   forall c, In c required -> In c df_columns)
  /\ (forall e,
        AddEnumToDef.validate_csv_columns df_columns required = Err e ->
        exists missing,
          e = ValueError_columns missing
          /\ missing <> []
          /\ forall c, In c missing <->
                       In c required /\ ~ In c df_columns).
Proof.
  unfold AddEnumToDef.validate_csv_columns.
  assert (F : forall c,
             In c (filter (fun c => negb (str_in c df_columns)) required) <->
             In c required /\ ~ In c df_columns).
  { intros c. rewrite filter_In, negb_true_iff.
    rewrite <- str_in_In with (l := df_columns).
    destruct (str_in c df_columns); split; intros [H1 H2]; split;
      auto; try discriminate; exfalso; apply H2; reflexivity. }
  destruct (filter (fun c => negb (str_in c df_columns)) required)
    as [|m ms] eqn:E.
  - split.
    + split; [|reflexivity]. intros _ c Hc.
      destruct (str_in c df_columns) eqn:S; [apply str_in_In; exact S|].
      assert (In c []) as []. apply F. split; [exact Hc|].
      rewrite <- str_in_In, S. discriminate.
    + discriminate.
  - split.
    + split; [discriminate|]. intros H. exfalso.
      assert (Hm : In m (m :: ms)) by (left; reflexivity).
      apply F in Hm. destruct Hm as [Hr Hn]. apply Hn, H, Hr.
    + intros e H. inversion H; subst.
      exists (m :: ms). split; [reflexivity|]. split; [discriminate|].
      exact F.
Qed.

(** ** Further properties: the entry of a type *)

Section Locality.

Variables df1 df2 : DataFrame.
Variable enum_name : scalar.
Hypothesis same_rows :
  rows_for_type df1 enum_name = rows_for_type df2 enum_name.

Lemma pull_enum_same_rows :
  AddEnumToDef.pull_enum df1 enum_name = AddEnumToDef.pull_enum df2 enum_name
  /\ UpdateDefinitions.pull_enum df1 enum_name
     = UpdateDefinitions.pull_enum df2 enum_name.
Proof.
  unfold AddEnumToDef.pull_enum, UpdateDefinitions.pull_enum.
  rewrite <- !rows_for_type_mask, same_rows. split; reflexivity.
Qed.

Lemma add_term_record_same_rows (t : scalar) :
  AddEnumToDef.term_record df1 enum_name t
  = AddEnumToDef.term_record df2 enum_name t.
Proof.
  unfold AddEnumToDef.term_record, AddEnumToDef.add_field,
    AddEnumToDef.get_enum_definition, AddEnumToDef.get_enum_source,
    AddEnumToDef.get_enum_term_id.
  rewrite (proj1 pull_enum_same_rows). reflexivity.
Qed.

Lemma update_term_record_same_rows (t : scalar) :
  UpdateDefinitions.term_record df1 enum_name t
  = UpdateDefinitions.term_record df2 enum_name t.
Proof.
  unfold UpdateDefinitions.term_record, UpdateDefinitions.add_field,
    UpdateDefinitions.get_enum_definition, UpdateDefinitions.get_enum_source,
    UpdateDefinitions.get_enum_term_id.
  rewrite (proj2 pull_enum_same_rows). reflexivity.
Qed.

(** The entry of a type is a function of the rows of that type alone: two
    tables that have the same rows for the type, in the same order, give the
    same result (the same entry or the same error) in each script, whatever
    rows of other types they hold and wherever those stand. *)
Theorem entry_depends_on_rows_of_type (description : pyval) :
  AddEnumToDef.construct_enum_term_yaml_entry df1 enum_name description
  = AddEnumToDef.construct_enum_term_yaml_entry df2 enum_name description
  /\ UpdateDefinitions.construct_enum_term_yaml_entry df1 enum_name
       description
     = UpdateDefinitions.construct_enum_term_yaml_entry df2 enum_name
         description.
Proof.
  destruct pull_enum_same_rows as [PA PU].
  unfold AddEnumToDef.construct_enum_term_yaml_entry,
    UpdateDefinitions.construct_enum_term_yaml_entry,
    AddEnumToDef.construct_enum_def, UpdateDefinitions.construct_enum_def,
    AddEnumToDef.get_enum_list, UpdateDefinitions.get_enum_list.
  rewrite PA, PU. split.
  - destruct (AddEnumToDef.pull_enum df2 enum_name) as [rows|e];
      [|reflexivity].
    cbn [bind]. destruct (AddEnumToDef.col_to_list rows "enum") as [terms|e];
      [|reflexivity].
    cbn [bind]. unfold for_each.
    rewrite for_in_ext with
      (body2 := fun enum_term enum_def_list =>
         ret (enum_def_list
              ++ [PDict (AddEnumToDef.term_record df2 enum_name enum_term)]));
      [reflexivity|].
    intros t acc _. rewrite add_term_record_same_rows. reflexivity.
  - destruct (UpdateDefinitions.col_to_list
                (UpdateDefinitions.pull_enum df2 enum_name) "enum")
      as [terms|e]; [|reflexivity].
    cbn [bind]. unfold for_each.
    rewrite for_in_ext with
      (body2 := fun enum_term enum_def_list =>
         enumdef <- UpdateDefinitions.term_record df2 enum_name enum_term ;;
         ret (enum_def_list ++ [PDict enumdef]));
      [reflexivity|].
    intros t acc _. rewrite update_term_record_same_rows. reflexivity.
Qed.

End Locality.

Lemma entry_depends_on_rows_of_type_witness :
  AddEnumToDef.construct_enum_term_yaml_entry mixed_table (SStr "Color")
    py_None
  = AddEnumToDef.construct_enum_term_yaml_entry color_table (SStr "Color")
      py_None.
Proof.
  exact (proj1 (entry_depends_on_rows_of_type mixed_table color_table
                  (SStr "Color") eq_refl py_None)).
Defined.

(** ** Further properties: lookups for the terms of a type *)

Lemma mask_enum_missing (rows : DataFrame) (t : scalar) :
  isna t = true -> mask_eq enum t rows = [].
Proof.
  intros H. unfold mask_eq. induction rows as [|r rows IH]; simpl;
    [reflexivity|].
  unfold series_eq at 1. rewrite H. destruct (isna (enum r)); exact IH.
Qed.

Lemma first_match_missing (df : DataFrame) (n t : scalar) :
  isna t = true -> first_match df n t = None.
Proof.
  intros H. unfold first_match. induction df as [|r df IH]; simpl;
    [reflexivity|].
  assert (E : series_eq (enum r) t = false).
  { unfold series_eq. rewrite H. destruct (isna (enum r)); reflexivity. }
  rewrite E, andb_false_r. exact IH.
Qed.

Lemma first_match_row (df : DataFrame) (n t : scalar) (r : row) :
  first_match df n t = Some r ->
  In r df /\ series_eq (type_name r) n = true
  /\ series_eq (enum r) t = true.
Proof.
  unfold first_match. intros F. apply find_some in F.
  destruct F as [Hin Hb]. apply andb_true_iff in Hb. tauto.
Qed.

(** The lookups of a term of the type's term list succeed exactly when the
    term is not missing.  For a term that is neither None nor NaN, each of
    the three lookups returns, in both scripts, the field of one row of the
    type whose term equals it.  For a missing term no row is found: the
    command-line tool raises its IndexError and the earlier script the
    IndexError of [.iloc[0]]. *)
Theorem term_lookups_succeed_unless_missing (df : DataFrame)
    (enum_name term : scalar) :
  In term (term_list df enum_name) ->
  (isna term = false ->
   exists r,
     In r df /\ series_eq (type_name r) enum_name = true
     /\ series_eq (enum r) term = true
     /\ AddEnumToDef.get_enum_definition df enum_name term
        = Ok (enum_definition r)
     /\ AddEnumToDef.get_enum_source df enum_name term = Ok (source r)
     /\ AddEnumToDef.get_enum_term_id df enum_name term = Ok (term_id r)
     /\ UpdateDefinitions.get_enum_definition df enum_name term
        = Ok (enum_definition r)
     /\ UpdateDefinitions.get_enum_source df enum_name term = Ok (source r)
     /\ UpdateDefinitions.get_enum_term_id df enum_name term
        = Ok (term_id r))
  /\ (isna term = true ->
      AddEnumToDef.get_enum_definition df enum_name term
      = Err (IndexError term enum_name)
      /\ AddEnumToDef.get_enum_source df enum_name term
         = Err (IndexError term enum_name)
      /\ AddEnumToDef.get_enum_term_id df enum_name term
         = Err (IndexError term enum_name)
      /\ UpdateDefinitions.get_enum_definition df enum_name term
         = Err IlocIndexError
      /\ UpdateDefinitions.get_enum_source df enum_name term
         = Err IlocIndexError
      /\ UpdateDefinitions.get_enum_term_id df enum_name term
         = Err IlocIndexError).
Proof.
  intros Hin.
  destruct (term_list_In _ _ _ Hin) as [r0 [Hr0 [Ht0 Et0]]].
  unfold AddEnumToDef.get_enum_definition, AddEnumToDef.get_enum_source,
    AddEnumToDef.get_enum_term_id, UpdateDefinitions.get_enum_definition,
    UpdateDefinitions.get_enum_source, UpdateDefinitions.get_enum_term_id.
  rewrite !add_lookup_shape, !update_lookup_shape.
  split; intros Hna.
  - destruct (first_match_exists df enum_name r0 term Hr0 Ht0) as [r F].
    { rewrite <- Et0. apply series_eq_refl. rewrite Et0. exact Hna. }
    rewrite F. exists r.
    destruct (first_match_row _ _ _ _ F) as [H1 [H2 H3]].
    repeat split; assumption.
  - rewrite (first_match_missing _ _ _ Hna).
    assert (E : empty (mask_eq type_name enum_name df) = false).
    { destruct (mask_eq type_name enum_name df) eqn:M; [|reflexivity].
      exfalso. assert (H : has_type df enum_name) by (exists r0; auto).
      apply has_type_mask in H. auto. }
    rewrite E. repeat split; reflexivity.
Qed.

Lemma term_lookups_succeed_unless_missing_witness :
  In (SStr "BLUE") (term_list color_table (SStr "Color"))
  /\ (exists r,
        In r color_table
        /\ AddEnumToDef.get_enum_source color_table (SStr "Color")
             (SStr "BLUE")
           = Ok (source r))
  /\ In (SFloat FNaN) (term_list blank_term_table (SStr "Color"))
  /\ AddEnumToDef.get_enum_source blank_term_table (SStr "Color")
       (SFloat FNaN)
     = Err (IndexError (SFloat FNaN) (SStr "Color")).
Proof.
  assert (H1 : In (SStr "BLUE") (term_list color_table (SStr "Color")))
    by (right; left; reflexivity).
  assert (H2 : In (SFloat FNaN) (term_list blank_term_table (SStr "Color")))
    by (left; reflexivity).
  split; [exact H1|]. split; [|split; [exact H2|]].
  - destruct (proj1 (term_lookups_succeed_unless_missing _ _ _ H1) eq_refl)
      as [r [Hr [_ [_ [_ [S _]]]]]].
    exists r. split; [exact Hr | exact S].
  - exact (proj1 (proj2 (proj2 (term_lookups_succeed_unless_missing _ _ _ H2)
                           eq_refl))).
Defined.

(** ** Further properties: the shape of a term record *)

Lemma add_field_appends
    (getter : DataFrame -> scalar -> scalar -> result scalar)
    (df : DataFrame) (n t : scalar) (key : string) (d : dict) :
  (forall k v, In (k, v) d -> py_eq k (SStr key) = false) ->
  exists part,
    AddEnumToDef.add_field getter df n t key d = d ++ part
    /\ optional_pair key part.
Proof.
  intros Hk.
  assert (A : forall v, dict_set d (SStr key) v = d ++ [(SStr key, v)]).
  { intros v. induction d as [|[k0 v0] d IH]; simpl; [reflexivity|].
    rewrite (Hk k0 v0 (or_introl eq_refl)), IH; [reflexivity|].
    intros k v' Hin. apply (Hk k v'). right; exact Hin. }
  destruct (add_field_cases df n getter t key d)
    as [[v [_ [C E]]] | [E _]]; rewrite E.
  - exists [(SStr key, Atom v)]. split; [apply A|].
    right. exists v. auto.
  - exists []. split; [rewrite app_nil_r; reflexivity | left; reflexivity].
Qed.

(** A term record always has the shape the loop body builds it in: the
    pair [enumeration: term] first, then at most one [definition], at most
    one [source] and at most one [term_id], in that order and with no other
    key; every optional value present is one [check_null] classifies as not
    null. *)
Theorem term_record_shape (df : DataFrame) (enum_name term : scalar) :
  exists definition_part source_part term_id_part,
    AddEnumToDef.term_record df enum_name term
    = (SStr "enumeration", Atom term)
      :: definition_part ++ source_part ++ term_id_part
    /\ optional_pair "definition" definition_part
    /\ optional_pair "source" source_part
    /\ optional_pair "term_id" term_id_part.
Proof.
  unfold AddEnumToDef.term_record.
  destruct (add_field_appends AddEnumToDef.get_enum_definition df enum_name
              term "definition" [(SStr "enumeration", Atom term)])
    as [p1 [E1 O1]].
  { intros k v [H | []]. inversion H; reflexivity. }
  rewrite E1.
  destruct (add_field_appends AddEnumToDef.get_enum_source df enum_name
              term "source" ([(SStr "enumeration", Atom term)] ++ p1))
    as [p2 [E2 O2]].
  { intros k v Hin. apply in_app_or in Hin.
    destruct Hin as [[H | []] | Hin]; [inversion H; reflexivity|].
    destruct O1 as [-> | [v1 [-> _]]]; [destruct Hin|].
    destruct Hin as [H | []]. inversion H; reflexivity. }
  rewrite E2.
  destruct (add_field_appends AddEnumToDef.get_enum_term_id df enum_name
              term "term_id"
              (([(SStr "enumeration", Atom term)] ++ p1) ++ p2))
    as [p3 [E3 O3]].
  { intros k v Hin. apply in_app_or in Hin. destruct Hin as [Hin | Hin].
    - apply in_app_or in Hin.
      destruct Hin as [[H | []] | Hin]; [inversion H; reflexivity|].
      destruct O1 as [-> | [v1 [-> _]]]; [destruct Hin|].
      destruct Hin as [H | []]. inversion H; reflexivity.
    - destruct O2 as [-> | [v2 [-> _]]]; [destruct Hin|].
      destruct Hin as [H | []]. inversion H; reflexivity. }
  rewrite E3. exists p1, p2, p3.
  split; [|auto]. simpl. rewrite <- app_assoc. reflexivity.
Qed.

(** ** Further properties: when an entry is built *)

Lemma term_list_nonempty (df : DataFrame) (n : scalar) :
  has_type df n -> term_list df n <> [].
Proof.
  intros H E. apply has_type_mask in H. apply H.
  rewrite term_list_mask in E.
  destruct (mask_eq type_name n df); [reflexivity | discriminate].
Qed.

(** The command-line tool builds an entry exactly for the types that have a
    row: the entry then has a non-empty enum list (the tool never produces
    an entry without terms); for any other name [get_enum_list],
    [construct_enum_def] and [construct_enum_term_yaml_entry] all raise the
    ValueError of [pull_enum] that names the type. *)
Theorem entry_built_iff_type_present (df : DataFrame) (enum_name : scalar)
    (description : pyval) :
  (forall entry,
     AddEnumToDef.construct_enum_term_yaml_entry df enum_name description
     = Ok entry ->
     has_type df enum_name
     /\ exists t terms,
          term_list df enum_name = t :: terms
          /\ entry
             = PDict
                 [(SStr "description", description);
                  (SStr "enum", PList (map Atom (t :: terms)));
                  (SStr "enumDef",
                   PList (map (fun x =>
                                 PDict (AddEnumToDef.term_record df
                                          enum_name x))
                            (t :: terms)))])
  /\ (forall e,
        AddEnumToDef.construct_enum_term_yaml_entry df enum_name description
        = Err e ->
        e = ValueError enum_name
        /\ AddEnumToDef.get_enum_list df enum_name = Err e
        /\ AddEnumToDef.construct_enum_def df enum_name = Err e
        /\ forall r, In r df -> series_eq (type_name r) enum_name = false).
Proof.
  destruct (has_type_dec df enum_name) as [H | H].
  - rewrite (construct_entry_has_type _ _ description H).
    split; [|discriminate].
    intros entry E. inversion E; subst. split; [exact H|].
    pose proof (term_list_nonempty _ _ H) as N.
    destruct (term_list df enum_name) as [|t terms];
      [exfalso; apply N; reflexivity|].
    exists t, terms. auto.
  - rewrite (construct_entry_no_type _ _ description H).
    split; [discriminate|].
    intros e E. inversion E; subst. split; [reflexivity|].
    split; [apply get_enum_list_no_type; exact H|]. split.
    + unfold AddEnumToDef.construct_enum_def.
      rewrite (get_enum_list_no_type _ _ H). reflexivity.
    + intros r Hr. destruct (series_eq (type_name r) enum_name) eqn:S;
        [|reflexivity].
      exfalso. apply H. exists r. auto.
Qed.

Lemma for_in_uniform_error {A S} (e0 : exn) (body : A -> S -> result S)
    (xs : list A) :
  (forall x s, In x xs ->
     body x s = Err e0 \/ exists s', body x s = Ok s') ->
  (exists x, In x xs /\ forall s, body x s = Err e0) ->
  forall s, exists s', for_in xs body s = (s', Err e0).
Proof.
  induction xs as [|x xs IH]; intros U [y [Hy Ey]] s; [destruct Hy|].
  simpl. destruct (U x s (or_introl eq_refl)) as [E | [s' E]]; rewrite E.
  - exists s; reflexivity.
  - destruct Hy as [<- | Hy]; [rewrite Ey in E; discriminate|].
    apply IH.
    + intros z s0 Hz. apply U. right; exact Hz.
    + exists y. auto.
Qed.

Lemma terms_present_or_missing (df : DataFrame) (n : scalar) :
  terms_present df n \/ term_missing df n.
Proof.
  unfold terms_present, term_missing.
  induction df as [|r df [IH | [r' [Hr' [Ht' Hn']]]]].
  - left. intros r [].
  - destruct (series_eq (type_name r) n) eqn:T.
    + destruct (isna (enum r)) eqn:N.
      * right. exists r. split; [left; reflexivity | auto].
      * left. intros r' [<- | Hr'] Ht'; [exact N | apply IH; assumption].
    + left. intros r' [<- | Hr'] Ht'; [congruence | apply IH; assumption].
  - right. exists r'. split; [right; exact Hr' | auto].
Qed.

Lemma update_term_record_outcome (df : DataFrame) (n t : scalar) :
  UpdateDefinitions.term_record df n t = Err IlocIndexError
  \/ exists d, UpdateDefinitions.term_record df n t = Ok d.
Proof.
  destruct (first_match df n t) as [r|] eqn:F.
  - right. eexists. apply (update_term_record_agrees _ _ _ _ F).
  - left. unfold UpdateDefinitions.term_record, UpdateDefinitions.add_field,
      UpdateDefinitions.get_enum_definition.
    rewrite update_lookup_shape, F. reflexivity.
Qed.

Lemma update_term_record_missing (df : DataFrame) (n t : scalar) :
  isna t = true -> UpdateDefinitions.term_record df n t = Err IlocIndexError.
Proof.
  intros H. unfold UpdateDefinitions.term_record, UpdateDefinitions.add_field,
    UpdateDefinitions.get_enum_definition.
  rewrite update_lookup_shape, (first_match_missing _ _ _ H). reflexivity.
Qed.

(** The earlier script's [construct_enum_term_yaml_entry] raises exactly
    when some row of the type has a missing (None or NaN) term, and the
    error is then the IndexError of [.iloc[0]]; otherwise it returns the
    entry, with the records the command-line tool would build.  For a name
    that has no row it returns an entry with empty [enum] and [enumDef]
    lists, where the command-line tool raises. *)
Theorem update_entry_fails_iff_term_missing (df : DataFrame)
    (enum_name : scalar) (description : pyval) :
  (terms_present df enum_name \/ term_missing df enum_name)
  /\ (terms_present df enum_name ->
      UpdateDefinitions.construct_enum_term_yaml_entry df enum_name
        description
      = Ok (PDict
              [(SStr "description", description);
               (SStr "enum", PList (map Atom (term_list df enum_name)));
               (SStr "enumDef",
                PList (map (fun t =>
                              PDict (AddEnumToDef.term_record df enum_name t))
                         (term_list df enum_name)))]))
  /\ (term_missing df enum_name ->
      UpdateDefinitions.construct_enum_term_yaml_entry df enum_name
        description
      = Err IlocIndexError)
  /\ (~ has_type df enum_name ->
      UpdateDefinitions.construct_enum_term_yaml_entry df enum_name
        description
      = Ok (PDict [(SStr "description", description);
                   (SStr "enum", PList []);
                   (SStr "enumDef", PList [])])).
Proof.
  assert (P : terms_present df enum_name ->
              UpdateDefinitions.construct_enum_term_yaml_entry df enum_name
                description
              = Ok (PDict
                      [(SStr "description", description);
                       (SStr "enum",
                        PList (map Atom (term_list df enum_name)));
                       (SStr "enumDef",
                        PList (map (fun t =>
                                      PDict (AddEnumToDef.term_record df
                                               enum_name t))
                                 (term_list df enum_name)))])).
  { intros H. unfold UpdateDefinitions.construct_enum_term_yaml_entry.
    rewrite update_get_enum_list. cbn [bind].
    rewrite (update_construct_enum_def_agrees _ _ H). reflexivity. }
  split; [apply terms_present_or_missing|]. split; [exact P|]. split.
  - intros [r [Hr [Ht Hn]]].
    unfold UpdateDefinitions.construct_enum_term_yaml_entry,
      UpdateDefinitions.construct_enum_def.
    rewrite update_get_enum_list. cbn [bind]. unfold for_each.
    destruct (for_in_uniform_error IlocIndexError
                (fun enum_term enum_def_list =>
                   enumdef <- UpdateDefinitions.term_record df enum_name
                                enum_term ;;
                   ret (enum_def_list ++ [PDict enumdef]))
                (term_list df enum_name)) with (s := @nil pyval)
      as [s' E].
    + intros t acc _.
      destruct (update_term_record_outcome df enum_name t) as [E | [d E]];
        rewrite E; [left; reflexivity | right; eexists; reflexivity].
    + exists (enum r). split.
      * rewrite term_list_mask. apply in_map. apply filter_In. auto.
      * intros acc. rewrite (update_term_record_missing _ _ _ Hn).
        reflexivity.
    + rewrite E. reflexivity.
  - intros H.
    assert (T : term_list df enum_name = []).
    { rewrite term_list_mask.
      destruct (mask_eq type_name enum_name df) eqn:M; [reflexivity|].
      exfalso. apply H, has_type_mask. rewrite M. discriminate. }
    rewrite P, T; [reflexivity|].
    intros r Hr Ht. exfalso. apply H. exists r. auto.
Qed.

(** ** Further properties: the merged document *)

Lemma dict_set_same_value (d : dict) (k : scalar) (v : pyval) :
  dict_get d k = Some v -> dict_set d k v = d.
Proof.
  induction d as [|[k0 v0] d IH]; simpl; [discriminate|].
  destruct (py_eq k0 k).
  - intros H. inversion H; reflexivity.
  - intros H. rewrite (IH H). reflexivity.
Qed.

Lemma dict_get_same_key (d : dict) (k1 k2 : scalar) :
  hash_key k1 = hash_key k2 -> dict_get d k1 = dict_get d k2.
Proof.
  intros H. induction d as [|[k0 v0] d IH]; simpl; [reflexivity|].
  unfold py_eq. rewrite H, IH. reflexivity.
Qed.

Lemma dict_set_keys (d : dict) (k : scalar) (v : pyval) :
  map fst (dict_set d k v)
  = map fst d ++ (if dict_has d k then [] else [k]).
Proof.
  unfold dict_has. induction d as [|[k0 v0] d IH]; simpl; [reflexivity|].
  destruct (py_eq k0 k); simpl; [rewrite app_nil_r; reflexivity|].
  rewrite IH. reflexivity.
Qed.

Section MergedDocument.

Variable df : DataFrame.

Lemma merge_fixed (xs : list scalar) (d : dict) :
  (forall x, In x xs ->
     exists entry,
       AddEnumToDef.construct_enum_term_yaml_entry df x py_None = Ok entry
       /\ dict_get d x = Some entry) ->
  for_in xs (AddEnumToDef.merge_step df) d = (d, Ok tt).
Proof.
  induction xs as [|x xs IH]; simpl; intros H; [reflexivity|].
  destruct (H x (or_introl eq_refl)) as [entry [E G]].
  unfold AddEnumToDef.merge_step at 1. rewrite E. cbn [bind ret].
  rewrite (dict_set_same_value _ _ _ G). apply IH.
  intros y Hy. apply H. right; exact Hy.
Qed.

Lemma merge_keys (xs : list scalar) :
  forall d d' res,
    for_in xs (AddEnumToDef.merge_step df) d = (d', res) ->
    exists added,
      map fst d' = map fst d ++ added
      /\ forall x, In x added -> In x xs /\ dict_get d x = None.
Proof.
  induction xs as [|x xs IH]; simpl; intros d d' res H.
  - inversion H; subst. exists []. rewrite app_nil_r.
    split; [reflexivity | intros x []].
  - destruct (AddEnumToDef.merge_step df x d) as [d1|e] eqn:S.
    + apply merge_step_Ok in S. destruct S as [entry [_ ->]].
      destruct (IH _ _ _ H) as [added [K A]].
      rewrite dict_set_keys in K.
      exists ((if dict_has d x then [] else [x]) ++ added).
      split.
      * rewrite K, <- app_assoc. reflexivity.
      * intros y Hy. apply in_app_or in Hy. destruct Hy as [Hy | Hy].
        -- unfold dict_has in Hy.
           destruct (dict_get d x) eqn:G; [destruct Hy|].
           destruct Hy as [<- | []]. split; [left; reflexivity | exact G].
        -- destruct (A y Hy) as [Hin Hnone]. split; [right; exact Hin|].
           destruct (py_eq x y) eqn:E.
           ++ rewrite dict_get_set_same in Hnone by exact E. discriminate.
           ++ rewrite dict_get_set_other in Hnone by exact E. exact Hnone.
    + inversion H; subst. exists []. rewrite app_nil_r.
      split; [reflexivity | intros y []].
Qed.

Variable set_iter : list scalar -> list scalar.
Hypothesis set_iter_order : set_order set_iter.
Hypothesis df_types_present : types_present df.

Lemma merge_loop_present (d : dict) :
  exists d',
    AddEnumToDef.merge_loop set_iter df d = (d', Ok tt)
    /\ forall x,
         In x (unique (map type_name df)) ->
         isna x = false
         /\ exists entry,
              AddEnumToDef.construct_enum_term_yaml_entry df x py_None
              = Ok entry
              /\ dict_get d' x = Some entry.
Proof.
  assert (A : forall x,
             In x (set_iter (unique (map type_name df))) ->
             isna x = false
             /\ exists entry,
                  AddEnumToDef.construct_enum_term_yaml_entry df x py_None
                  = Ok entry).
  { intros x Hx.
    destruct (iteration_row _ set_iter_order _ _ Hx) as [r [Hr <-]].
    split; [apply df_types_present; exact Hr|].
    apply present_type_has_entry;
      [exact Hr | apply df_types_present; exact Hr]. }
  unfold AddEnumToDef.merge_loop.
  destruct (merge_completes df _ (fun x Hx => proj2 (A x Hx)) d) as [d' M].
  exists d'. split; [exact M|].
  intros x Hx. apply (iteration_In _ set_iter_order) in Hx.
  split; [apply (A x Hx)|].
  apply (merge_sets df _ (iteration_NoDup _ set_iter_order df)
           (fun y Hy => proj1 (A y Hy)) _ _ M x Hx).
Qed.

End MergedDocument.

(** Merging is idempotent: when no row has a missing type name, merging the
    same table into the document a first merge produced completes and
    leaves that document exactly as it is (keys, values and order), even
    when the set is iterated in another order the second time. *)
Theorem merge_twice_is_merge_once
    (set_iter1 set_iter2 : list scalar -> list scalar)
    (df : DataFrame) (d : dict) :
  set_order set_iter1 -> set_order set_iter2 -> types_present df ->
  AddEnumToDef.merge_loop set_iter2 df
    (fst (AddEnumToDef.merge_loop set_iter1 df d))
  = (fst (AddEnumToDef.merge_loop set_iter1 df d), Ok tt).
Proof.
  intros O1 O2 P.
  destruct (merge_loop_present df set_iter1 O1 P d) as [d1 [M1 S1]].
  rewrite M1. simpl. unfold AddEnumToDef.merge_loop.
  apply merge_fixed. intros x Hx.
  apply (iteration_In _ O2) in Hx. apply (S1 x Hx).
Qed.

Lemma merge_twice_is_merge_once_witness :
  AddEnumToDef.merge_loop (fun l => rev (unique l)) color_table
    (fst (AddEnumToDef.merge_loop unique color_table sample_document))
  = (fst (AddEnumToDef.merge_loop unique color_table sample_document), Ok tt).
Proof.
  apply merge_twice_is_merge_once.
  - intros l. apply Permutation_refl.
  - intros l. apply Permutation_rev.
  - intros r [<- | [<- | []]]; reflexivity.
Defined.

(** The iteration order of the set does not show in the merged mapping:
    when no row has a missing type name, two merges of the same table into
    the same document that iterate in different orders give documents in
    which every key has the same value (the new keys may stand in a
    different order). *)
Theorem merge_independent_of_order
    (set_iter1 set_iter2 : list scalar -> list scalar)
    (df : DataFrame) (d : dict) (k : scalar) :
  set_order set_iter1 -> set_order set_iter2 -> types_present df ->
  dict_get (fst (AddEnumToDef.merge_loop set_iter1 df d)) k
  = dict_get (fst (AddEnumToDef.merge_loop set_iter2 df d)) k.
Proof.
  intros O1 O2 P.
  destruct (merge_loop_present df set_iter1 O1 P d) as [d1 [M1 S1]].
  destruct (merge_loop_present df set_iter2 O2 P d) as [d2 [M2 S2]].
  rewrite M1, M2. simpl.
  destruct (existsb (fun x => py_eq x k) (unique (map type_name df))) eqn:X.
  - apply existsb_exists in X. destruct X as [x [Hx E]].
    apply py_eq_true in E. destruct E as [E _].
    rewrite <- (dict_get_same_key d1 _ _ E), <- (dict_get_same_key d2 _ _ E).
    destruct (S1 x Hx) as [_ [e1 [C1 G1]]].
    destruct (S2 x Hx) as [_ [e2 [C2 G2]]].
    rewrite G1, G2. congruence.
  - assert (N : forall s, set_order s ->
                forall x, In x (s (unique (map type_name df))) ->
                          py_eq x k = false).
    { intros s O x Hx. apply (iteration_In _ O) in Hx.
      destruct (py_eq x k) eqn:E; [|reflexivity].
      assert (existsb (fun x => py_eq x k) (unique (map type_name df))
              = true) by (apply existsb_exists; eauto).
      congruence. }
    unfold AddEnumToDef.merge_loop in M1, M2.
    rewrite (merge_frame_get _ _ _ _ _ M1 k (N _ O1)).
    rewrite (merge_frame_get _ _ _ _ _ M2 k (N _ O2)). reflexivity.
Qed.

Lemma merge_independent_of_order_witness :
  dict_get (fst (AddEnumToDef.merge_loop unique mixed_table sample_document))
    (SStr "Shape")
  = dict_get
      (fst (AddEnumToDef.merge_loop (fun l => rev (unique l)) mixed_table
              sample_document))
      (SStr "Shape").
Proof.
  apply merge_independent_of_order.
  - intros l. apply Permutation_refl.
  - intros l. apply Permutation_rev.
  - intros r [<- | [<- | [<- | [<- | []]]]]; reflexivity.
Defined.

(** The merge never reorders or removes keys: the keys of the document it
    started from are the first keys of the document it ends with, in the
    same order, whether the loop completes or aborts; the keys after them
    are type names the loop iterated over that the document did not have. *)
Theorem merge_keeps_key_order (set_iter : list scalar -> list scalar)
    (df : DataFrame) (d : dict) :
  exists added,
    map fst (fst (AddEnumToDef.merge_loop set_iter df d))
    = map fst d ++ added
    /\ forall x,
         In x added ->
         In x (set_iter (unique (map type_name df)))
         /\ dict_get d x = None.
Proof.
  unfold AddEnumToDef.merge_loop.
  destruct (for_in (set_iter (unique (map type_name df)))
              (AddEnumToDef.merge_step df) d) as [d' res] eqn:M.
  apply (merge_keys df _ _ _ _ M).
Qed.

(** ** Further properties: the classifier on strings *)

Lemma is_space_lower_char (c : ascii) : is_space (lower_char c) = is_space c.
Proof. destruct c as [[] [] [] [] [] [] [] []]; reflexivity. Qed.

Lemma lower_char_idempotent (c : ascii) :
  lower_char (lower_char c) = lower_char c.
Proof. destruct c as [[] [] [] [] [] [] [] []]; reflexivity. Qed.

Lemma lower_idempotent (s : string) : lower (lower s) = lower s.
Proof.
  induction s as [|c s IH]; simpl; [reflexivity|].
  rewrite lower_char_idempotent, IH. reflexivity.
Qed.

Lemma lstrip_lower (s : string) : lstrip (lower s) = lower (lstrip s).
Proof.
  induction s as [|c s IH]; simpl; [reflexivity|].
  rewrite is_space_lower_char. destruct (is_space c); [exact IH | reflexivity].
Qed.

Lemma rstrip_lower (s : string) : rstrip (lower s) = lower (rstrip s).
Proof.
  induction s as [|c s IH]; simpl; [reflexivity|].
  rewrite IH, is_space_lower_char.
  destruct (rstrip s); simpl; [destruct (is_space c)|]; reflexivity.
Qed.

Lemma strip_lower (s : string) : strip (lower s) = lower (strip s).
Proof. unfold strip. rewrite lstrip_lower, rstrip_lower. reflexivity. Qed.

Lemma lstrip_blank (p : string) :
  all_whitespace p = true -> lstrip p = EmptyString.
Proof.
  induction p as [|c p IH]; simpl; [reflexivity|].
  intros H. apply andb_true_iff in H. destruct H as [Hc Hp].
  rewrite Hc. apply IH, Hp.
Qed.

Lemma rstrip_blank (p : string) :
  all_whitespace p = true -> rstrip p = EmptyString.
Proof.
  induction p as [|c p IH]; simpl; [reflexivity|].
  intros H. apply andb_true_iff in H. destruct H as [Hc Hp].
  rewrite (IH Hp), Hc. reflexivity.
Qed.

Lemma lstrip_blank_app (p x : string) :
  all_whitespace p = true -> lstrip (String.append p x) = lstrip x.
Proof.
  induction p as [|c p IH]; simpl; [reflexivity|].
  intros H. apply andb_true_iff in H. destruct H as [Hc Hp].
  rewrite Hc. apply IH, Hp.
Qed.

Lemma rstrip_app_blank (x p : string) :
  all_whitespace p = true -> rstrip (String.append x p) = rstrip x.
Proof.
  intros H. induction x as [|c x IH]; simpl.
  - apply rstrip_blank, H.
  - rewrite IH. reflexivity.
Qed.

Lemma lstrip_app (x p : string) :
  lstrip (String.append x p)
  = match lstrip x with
    | EmptyString => lstrip p
    | y => String.append y p
    end.
Proof.
  induction x as [|c x IH]; simpl.
  - destruct (lstrip p); reflexivity.
  - destruct (is_space c); [exact IH | reflexivity].
Qed.

Lemma strip_padding (pre s post : string) :
  all_whitespace pre = true -> all_whitespace post = true ->
  strip (String.append pre (String.append s post)) = strip s.
Proof.
  intros Hpre Hpost. unfold strip.
  rewrite (lstrip_blank_app _ _ Hpre), lstrip_app.
  destruct (lstrip s) as [|c y] eqn:E.
  - rewrite (lstrip_blank _ Hpost). reflexivity.
  - apply rstrip_app_blank, Hpost.
Qed.

(** The verdict of [check_null] on a string depends neither on the case of
    its letters nor on whitespace around it: lowercasing the string, or
    putting any run of whitespace characters before and after it, leaves
    the verdict unchanged. *)
Theorem check_null_ignores_case_and_padding (pre s post : string) :
  all_whitespace pre = true -> all_whitespace post = true ->
  AddEnumToDef.check_null
    (py_str (String.append pre (String.append s post)))
  = AddEnumToDef.check_null (py_str s)
  /\ AddEnumToDef.check_null (py_str (lower s))
     = AddEnumToDef.check_null (py_str s).
Proof.
  intros Hpre Hpost. unfold py_str. rewrite !check_null_str.
  rewrite (strip_padding _ _ _ Hpre Hpost), strip_lower, lower_idempotent.
  split; reflexivity.
Qed.

Lemma check_null_ignores_case_and_padding_witness :
  AddEnumToDef.check_null (py_str "  Not Available ")
  = AddEnumToDef.check_null (py_str "Not Available")
  /\ AddEnumToDef.check_null (py_str "not available")
     = AddEnumToDef.check_null (py_str "Not Available").
Proof.
  exact (check_null_ignores_case_and_padding "  " "Not Available" " "
           eq_refl eq_refl).
Defined.

(** ** Further properties: the run from the command line *)

Lemma validate_csv_columns_Ok (df_columns required : list string) :
  AddEnumToDef.validate_csv_columns df_columns required = Ok tt ->
  forall c, In c required -> In c df_columns.
Proof.
  unfold AddEnumToDef.validate_csv_columns. intros H c Hc.
  destruct (str_in c df_columns) eqn:S; [apply str_in_In; exact S|].
  assert (Hin : In c (filter (fun c => negb (str_in c df_columns)) required)).
  { apply filter_In. rewrite S. auto. }
  destruct (filter (fun c => negb (str_in c df_columns)) required);
    [destruct Hin | discriminate].
Qed.

Lemma validate_csv_columns_all (df_columns required : list string) :
  (forall c, In c required -> In c df_columns) ->
  AddEnumToDef.validate_csv_columns df_columns required = Ok tt.
Proof.
  unfold AddEnumToDef.validate_csv_columns. intros H.
  destruct (filter (fun c => negb (str_in c df_columns)) required)
    as [|m ms] eqn:E; [reflexivity|].
  assert (Hm : In m (m :: ms)) by (left; reflexivity).
  rewrite <- E in Hm. apply filter_In in Hm. destruct Hm as [Hr Hn].
  apply H, str_in_In in Hr. rewrite Hr in Hn. discriminate.
Qed.

(** A run of [process_enums] writes all or nothing.  Either it raises with
    no call of [write_yaml]; or both paths are existing regular files, the
    CSV was read and has the five required columns, the YAML file gave a
    mapping, every discovered type had its entry built, and [write_yaml]
    was called exactly once, on the YAML path, with the merged document
    (the run then returns unless that call itself raises).  In particular
    an unreadable, incomplete or empty input never leads to a write. *)
Theorem cli_run_writes_all_or_nothing
    (set_iter : list scalar -> list scalar) (fs : files)
    (enum_csv_path definitions_yaml_path : string)
    (calls : list (string * dict)) :
  (exists e,
     EnumCli.process_enums set_iter fs enum_csv_path definitions_yaml_path
       calls
     = (calls, Raised e))
  \/ (exists enum_df d d',
        path_exists fs enum_csv_path = true
        /\ path_is_file fs enum_csv_path = true
        /\ path_exists fs definitions_yaml_path = true
        /\ path_is_file fs definitions_yaml_path = true
        /\ read_csv fs enum_csv_path = Returned enum_df
        /\ (forall c, In c AddEnumToDef.required_columns ->
                      In c (frame_columns enum_df))
        /\ load_yaml fs (path_str fs definitions_yaml_path)
           = Returned (Some d)
        /\ AddEnumToDef.merge_loop set_iter (frame_rows enum_df) d
           = (d', Ok tt)
        /\ (forall x,
              In x (set_iter (unique (map type_name (frame_rows enum_df)))) ->
              exists entry,
                AddEnumToDef.construct_enum_term_yaml_entry
                  (frame_rows enum_df) x py_None
                = Ok entry)
        /\ EnumCli.process_enums set_iter fs enum_csv_path
             definitions_yaml_path calls
           = (calls ++ [(path_str fs definitions_yaml_path, d')],
              match write_yaml_raises fs
                      (path_str fs definitions_yaml_path) d' with
              | Some e => Raised e
              | None => Returned tt
              end)).
Proof.
  unfold EnumCli.process_enums, EnumCli.validate_file_exists.
  destruct (path_exists fs enum_csv_path) eqn:E1; simpl;
    [|left; eexists; reflexivity].
  destruct (path_is_file fs enum_csv_path) eqn:F1; simpl;
    [|left; eexists; reflexivity].
  destruct (path_exists fs definitions_yaml_path) eqn:E2; simpl;
    [|left; eexists; reflexivity].
  destruct (path_is_file fs definitions_yaml_path) eqn:F2; simpl;
    [|left; eexists; reflexivity].
  destruct (read_csv fs enum_csv_path) as [enum_df|e] eqn:R;
    [|left; eexists; reflexivity].
  destruct (AddEnumToDef.validate_csv_columns (frame_columns enum_df)
              AddEnumToDef.required_columns) as [[]|e] eqn:V;
    [|left; eexists; reflexivity].
  destruct (load_yaml fs (path_str fs definitions_yaml_path))
    as [[d|]|e] eqn:L; try (left; eexists; reflexivity).
  destruct (AddEnumToDef.merge_loop set_iter (frame_rows enum_df) d)
    as [d' [[]|e]] eqn:M; [|left; eexists; reflexivity].
  right. exists enum_df, d, d'.
  repeat (split; [first [reflexivity | assumption]|]).
  split; [apply (validate_csv_columns_Ok _ _ V)|].
  split; [reflexivity|]. split; [exact M|]. split.
  - unfold AddEnumToDef.merge_loop in M.
    apply (merge_completed _ _ _ _ M).
  - destruct (write_yaml_raises fs (path_str fs definitions_yaml_path) d');
      reflexivity.
Qed.

(** On valid inputs the run goes through: when both paths are existing
    regular files, the CSV has the required columns and no row with a
    missing type name, and the YAML file gives a mapping, [process_enums]
    calls [write_yaml] once with a document that holds the entry of every
    distinct type name and, at their positions, the keys of the loaded
    document that are no type names. *)
Theorem cli_run_on_valid_input
    (set_iter : list scalar -> list scalar) (fs : files)
    (enum_csv_path definitions_yaml_path : string)
    (calls : list (string * dict)) (enum_df : frame) (d : dict) :
  set_order set_iter ->
  path_exists fs enum_csv_path = true ->
  path_is_file fs enum_csv_path = true ->
  path_exists fs definitions_yaml_path = true ->
  path_is_file fs definitions_yaml_path = true ->
  read_csv fs enum_csv_path = Returned enum_df ->
  (forall c, In c AddEnumToDef.required_columns ->
             In c (frame_columns enum_df)) ->
  types_present (frame_rows enum_df) ->
  load_yaml fs (path_str fs definitions_yaml_path) = Returned (Some d) ->
  exists d',
    fst (EnumCli.process_enums set_iter fs enum_csv_path
           definitions_yaml_path calls)
    = calls ++ [(path_str fs definitions_yaml_path, d')]
    /\ (forall x,
          In x (unique (map type_name (frame_rows enum_df))) ->
          exists entry,
            AddEnumToDef.construct_enum_term_yaml_entry (frame_rows enum_df)
              x py_None
            = Ok entry
            /\ dict_get d' x = Some entry)
    /\ (forall i k v,
          nth_error d i = Some (k, v) ->
          (forall r, In r (frame_rows enum_df) ->
                     py_eq k (type_name r) = false) ->
          nth_error d' i = Some (k, v)).
Proof.
  intros O E1 F1 E2 F2 R C P L.
  destruct (merge_loop_present (frame_rows enum_df) set_iter O P d)
    as [d' [M S]].
  exists d'. split; [|split].
  - unfold EnumCli.process_enums, EnumCli.validate_file_exists.
    rewrite E1, F1, E2, F2. simpl. rewrite R.
    rewrite (validate_csv_columns_all _ _ C), L, M.
    destruct (write_yaml_raises fs (path_str fs definitions_yaml_path) d');
      reflexivity.
  - intros x Hx. apply (S x Hx).
  - intros i k v Hi N. unfold AddEnumToDef.merge_loop in M.
    apply (merge_frame_position _ _ _ _ _ M i k v Hi).
    intros x Hx. destruct (iteration_row _ O _ _ Hx) as [r [Hr <-]].
    apply N; exact Hr.
Qed.

Lemma cli_run_on_valid_input_witness :
  exists d',
    fst (EnumCli.process_enums unique color_files "enums.csv"
           "_definitions.yaml" [])
    = [("_definitions.yaml", d')]
    /\ exists entry, dict_get d' (SStr "Color") = Some entry.
Proof.
  destruct (cli_run_on_valid_input unique color_files "enums.csv"
              "_definitions.yaml" [] (mkFrame columns color_table)
              sample_document)
    as [d' [W [S _]]]; try reflexivity.
  - intros l. apply Permutation_refl.
  - intros c Hc. exact Hc.
  - intros r [<- | [<- | []]]; reflexivity.
  - exists d'. split; [exact W|].
    destruct (S (SStr "Color")) as [entry [_ G]]; [left; reflexivity|].
    exists entry. exact G.
Defined.

Lemma cli_run_outcomes (set_iter : list scalar -> list scalar) (fs : files)
    (enum_csv definitions_yaml : string) (calls : list (string * dict)) :
  (exists e,
     EnumCli.process_enums set_iter fs enum_csv definitions_yaml calls
     = (calls, Raised e))
  \/ (exists d',
        write_yaml_raises fs (path_str fs definitions_yaml) d' = None
        /\ EnumCli.process_enums set_iter fs enum_csv definitions_yaml calls
           = (calls ++ [(path_str fs definitions_yaml, d')], Returned tt))
  \/ (exists d' e,
        write_yaml_raises fs (path_str fs definitions_yaml) d' = Some e
        /\ EnumCli.process_enums set_iter fs enum_csv definitions_yaml calls
           = (calls ++ [(path_str fs definitions_yaml, d')], Raised e)).
Proof.
  unfold EnumCli.process_enums, EnumCli.validate_file_exists.
  destruct (path_exists fs enum_csv); simpl; [|left; eexists; reflexivity].
  destruct (path_is_file fs enum_csv); simpl; [|left; eexists; reflexivity].
  destruct (path_exists fs definitions_yaml); simpl;
    [|left; eexists; reflexivity].
  destruct (path_is_file fs definitions_yaml); simpl;
    [|left; eexists; reflexivity].
  destruct (read_csv fs enum_csv) as [enum_df|e];
    [|left; eexists; reflexivity].
  destruct (AddEnumToDef.validate_csv_columns (frame_columns enum_df)
              AddEnumToDef.required_columns) as [[]|e];
    [|left; eexists; reflexivity].
  destruct (load_yaml fs (path_str fs definitions_yaml)) as [[d|]|e];
    try (left; eexists; reflexivity).
  destruct (AddEnumToDef.merge_loop set_iter (frame_rows enum_df) d)
    as [d' [[]|e]]; [|left; eexists; reflexivity].
  right.
  destruct (write_yaml_raises fs (path_str fs definitions_yaml) d')
    as [e|] eqn:W.
  - right. exists d', e. auto.
  - left. exists d'. auto.
Qed.

(** The exit status of [main] tells whether the definitions file was
    rewritten: it is 0 exactly when [process_enums] returned, and then
    [write_yaml] was called once and did not raise; it is 1 in every other
    case, and then [write_yaml] was not called at all, unless the one call
    of it is what raised. *)
Theorem cli_exit_status (set_iter : list scalar -> list scalar) (fs : files)
    (enum_csv definitions_yaml : string) (calls : list (string * dict)) :
  (snd (EnumCli.main set_iter fs enum_csv definitions_yaml calls) = 0%Z
   /\ snd (EnumCli.process_enums set_iter fs enum_csv definitions_yaml calls)
      = Returned tt
   /\ exists d',
        fst (EnumCli.main set_iter fs enum_csv definitions_yaml calls)
        = calls ++ [(path_str fs definitions_yaml, d')]
        /\ write_yaml_raises fs (path_str fs definitions_yaml) d' = None)
  \/ (snd (EnumCli.main set_iter fs enum_csv definitions_yaml calls) = 1%Z
      /\ (exists e,
            snd (EnumCli.process_enums set_iter fs enum_csv definitions_yaml
                   calls)
            = Raised e)
      /\ (fst (EnumCli.main set_iter fs enum_csv definitions_yaml calls)
          = calls
          \/ exists d' e,
               fst (EnumCli.main set_iter fs enum_csv definitions_yaml calls)
               = calls ++ [(path_str fs definitions_yaml, d')]
               /\ write_yaml_raises fs (path_str fs definitions_yaml) d'
                  = Some e)).
Proof.
  unfold EnumCli.main.
  destruct (cli_run_outcomes set_iter fs enum_csv definitions_yaml calls)
    as [[e E] | [[d' [W E]] | [d' [e [W E]]]]]; rewrite E; simpl.
  - right. split; [reflexivity|]. split; [eexists; reflexivity|].
    left; reflexivity.
  - left. split; [reflexivity|]. split; [reflexivity|].
    exists d'. auto.
  - right. split; [reflexivity|]. split; [eexists; reflexivity|].
    right. exists d', e. auto.
Qed.

(** An empty definitions file stops the run: when [load_yaml] returns None
    for the YAML path (both paths being regular files and the CSV having the
    required columns), [process_enums] raises the TypeError of
    [len(None)], taken for a log message, before any entry is built, and
    nothing is written. *)
Theorem cli_empty_yaml_raises
    (set_iter : list scalar -> list scalar) (fs : files)
    (enum_csv_path definitions_yaml_path : string)
    (calls : list (string * dict)) (enum_df : frame) :
  path_exists fs enum_csv_path = true ->
  path_is_file fs enum_csv_path = true ->
  path_exists fs definitions_yaml_path = true ->
  path_is_file fs definitions_yaml_path = true ->
  read_csv fs enum_csv_path = Returned enum_df ->
  (forall c, In c AddEnumToDef.required_columns ->
             In c (frame_columns enum_df)) ->
  load_yaml fs (path_str fs definitions_yaml_path) = Returned None ->
  EnumCli.process_enums set_iter fs enum_csv_path definitions_yaml_path calls
  = (calls, Raised (Processing TypeError))
  /\ EnumCli.main set_iter fs enum_csv_path definitions_yaml_path calls
     = (calls, 1%Z).
Proof.
  intros E1 F1 E2 F2 R C L.
  assert (P : EnumCli.process_enums set_iter fs enum_csv_path
                definitions_yaml_path calls
              = (calls, Raised (Processing TypeError))).
  { unfold EnumCli.process_enums, EnumCli.validate_file_exists.
    rewrite E1, F1, E2, F2. simpl.
    rewrite R, (validate_csv_columns_all _ _ C), L. reflexivity. }
  split; [exact P|]. unfold EnumCli.main. rewrite P. reflexivity.
Qed.

Lemma cli_empty_yaml_raises_witness :
  EnumCli.process_enums unique empty_yaml_files "enums.csv"
    "_definitions.yaml" []
  = ([], Raised (Processing TypeError))
  /\ EnumCli.main unique empty_yaml_files "enums.csv" "_definitions.yaml" []
     = ([], 1%Z).
Proof.
  apply (cli_empty_yaml_raises unique empty_yaml_files "enums.csv"
           "_definitions.yaml" [] (mkFrame columns color_table));
    try reflexivity.
  intros c Hc. exact Hc.
Defined.

(** ** Further properties: the upload script *)

Lemma startswith_app (p r : string) : startswith p (String.append p r) = true.
Proof.
  induction p as [|a p IH]; simpl; [reflexivity|].
  rewrite Ascii.eqb_refl. exact IH.
Qed.

Lemma startswith_split (p s : string) :
  startswith p s = true ->
  s = String.append p (slice_from (String.length p) s).
Proof.
  revert s. induction p as [|a p IH]; intros s H; simpl; [reflexivity|].
  destruct s as [|b s]; simpl in H; [discriminate|].
  apply andb_true_iff in H. destruct H as [Hab Hp].
  apply Ascii.eqb_eq in Hab. subst b. simpl. rewrite <- (IH s Hp).
  reflexivity.
Qed.

Lemma slice_from_app (p r : string) :
  slice_from (String.length p) (String.append p r) = r.
Proof. induction p as [|a p IH]; simpl; [reflexivity | exact IH]. Qed.

Lemma contains_char_app (c : ascii) (b k : string) :
  contains_char c (String.append b (String c k)) = true.
Proof.
  induction b as [|a b IH]; simpl.
  - rewrite Ascii.eqb_refl. reflexivity.
  - rewrite IH. apply orb_true_r.
Qed.

Lemma split_once_app (c : ascii) (b k : string) :
  contains_char c b = false ->
  split_once c (String.append b (String c k)) = (b, k).
Proof.
  induction b as [|a b IH]; simpl; intros H.
  - rewrite Ascii.eqb_refl. reflexivity.
  - apply orb_false_iff in H. destruct H as [Ha Hb].
    rewrite Ha, (IH Hb). reflexivity.
Qed.

Lemma split_once_join (c : ascii) (s : string) :
  contains_char c s = true ->
  s = String.append (fst (split_once c s)) (String c (snd (split_once c s)))
  /\ contains_char c (fst (split_once c s)) = false.
Proof.
  induction s as [|a s IH]; simpl; intros H; [discriminate|].
  destruct (Ascii.eqb a c) eqn:E.
  - apply Ascii.eqb_eq in E. subst a. simpl. auto.
  - simpl in H. destruct (IH H) as [J N].
    destruct (split_once c s) as [before rest]. simpl in *.
    rewrite E, N. split; [rewrite <- J; reflexivity | reflexivity].
Qed.

Section Upload.

Variable sv : services.
Variable dict_file_path : string.
Variable dict_version : pyval.
Variable calls : list upload_call.

Lemma upload_not_s3 (uri : string) :
  (forall bucket key, uri <> s3_uri_of bucket key) ->
  UploadDictionary.upload_dict_to_s3 sv dict_file_path uri dict_version calls
  = (calls, false).
Proof.
  intros N. unfold UploadDictionary.upload_dict_to_s3.
  destruct (startswith "s3://" uri) eqn:P; [|reflexivity].
  cbn [negb].
  destruct (contains_char "/" (slice_from (String.length "s3://") uri))
    eqn:C; [|reflexivity].
  exfalso. apply startswith_split in P.
  destruct (split_once_join _ _ C) as [J _].
  apply (N (fst (split_once "/" (slice_from (String.length "s3://") uri)))
           (snd (split_once "/" (slice_from (String.length "s3://") uri)))).
  unfold s3_uri_of. rewrite <- J. exact P.
Qed.

Lemma uri_shape (uri : string) :
  (exists bucket key,
     uri = s3_uri_of bucket key /\ contains_char "/" bucket = false)
  \/ (forall bucket key, uri <> s3_uri_of bucket key).
Proof.
  destruct (startswith "s3://" uri) eqn:P.
  - destruct (contains_char "/" (slice_from (String.length "s3://") uri))
      eqn:C.
    + left. destruct (split_once_join _ _ C) as [J N].
      eexists. eexists. split; [|exact N].
      unfold s3_uri_of. rewrite <- J. apply startswith_split. exact P.
    + right. intros bucket key E. unfold s3_uri_of in E. subst uri.
      rewrite slice_from_app, contains_char_app in C. discriminate.
  - right. intros bucket key E. unfold s3_uri_of in E. subst uri.
    rewrite startswith_app in P. discriminate.
Qed.

Lemma upload_s3_uri (bucket key : string) :
  contains_char "/" bucket = false ->
  let call :=
    mkUpload dict_file_path bucket key
      (version_metadata (py_or dict_version (py_str "unknown"))) in
  UploadDictionary.upload_dict_to_s3 sv dict_file_path
    (s3_uri_of bucket key) dict_version calls
  = (calls ++ [call],
     match upload_raises sv call with
     | None => true
     | Some _ => false
     end).
Proof.
  intros N call.
  unfold UploadDictionary.upload_dict_to_s3, s3_uri_of.
  rewrite startswith_app. cbn [negb].
  rewrite slice_from_app, contains_char_app. cbn [negb].
  rewrite (split_once_app _ _ _ N).
  fold (version_metadata (py_or dict_version (py_str "unknown"))).
  fold call. destruct (upload_raises sv call); reflexivity.
Qed.

(** [upload_dict_to_s3] uploads exactly for the URIs of the form
    [s3://bucket/key]: for a bucket without a slash (empty or not) and any
    key (empty or not) it calls [upload_file] once with that very bucket
    and key and returns whether the call went through; for any other URI
    it returns False and calls nothing.  Every URI is of one of the two
    kinds, the function never raises, and the version it puts in the
    metadata is never a false value: a version that is false in Python
    (empty string, zero) is replaced by [unknown]. *)
Theorem upload_uri_round_trip :
  (forall bucket key,
     contains_char "/" bucket = false ->
     let call :=
       mkUpload dict_file_path bucket key
         (version_metadata (py_or dict_version (py_str "unknown"))) in
     UploadDictionary.upload_dict_to_s3 sv dict_file_path
       (s3_uri_of bucket key) dict_version calls
     = (calls ++ [call],
        match upload_raises sv call with
        | None => true
        | Some _ => false
        end))
  /\ (forall uri,
        (forall bucket key, uri <> s3_uri_of bucket key) ->
        UploadDictionary.upload_dict_to_s3 sv dict_file_path uri
          dict_version calls
        = (calls, false))
  /\ (forall uri,
        (exists bucket key,
           uri = s3_uri_of bucket key /\ contains_char "/" bucket = false)
        \/ (forall bucket key, uri <> s3_uri_of bucket key))
  /\ truthy (py_or dict_version (py_str "unknown")) = true
  /\ (truthy dict_version = true ->
      py_or dict_version (py_str "unknown") = dict_version).
Proof.
  split; [|split; [exact upload_not_s3 | split; [exact uri_shape|]]].
  - exact upload_s3_uri.
  - unfold py_or. split.
    + destruct (truthy dict_version) eqn:T; [exact T | reflexivity].
    + intros T. rewrite T. reflexivity.
Qed.

End Upload.

(** [get_dict_version] returns a version other than None exactly when the
    file holds an object whose [_settings.yaml] entry is an object with
    that version under [_dict_version].  (When either key is absent it
    returns None; when the file or the settings entry is no object it
    raises.) *)
Theorem dict_version_found_iff (sv : services) (dict_file_path : string)
    (dict_data version : pyval) :
  json_load sv dict_file_path = Returned dict_data ->
  version <> py_None ->
  UploadDictionary.get_dict_version sv dict_file_path = Returned version
  <-> exists d settings,
        dict_data = PDict d
        /\ dict_get d (SStr "_settings.yaml") = Some (PDict settings)
        /\ dict_get settings (SStr "_dict_version") = Some version.
Proof.
  intros L N. unfold UploadDictionary.get_dict_version. rewrite L.
  split.
  - destruct dict_data as [a | l | l | l | d | c]; try discriminate.
    cbn [py_get bind ret].
    destruct (dict_get d (SStr "_settings.yaml")) as [st|] eqn:S.
    + destruct st as [a | l | l | l | settings | c]; try discriminate.
      cbn [py_get bind ret].
      destruct (dict_get settings (SStr "_dict_version")) as [v|] eqn:V.
      * intros H. inversion H; subst. exists d, settings. auto.
      * intros H. inversion H; subst. exfalso; apply N; reflexivity.
    + cbn [py_get bind ret dict_get].
      intros H. inversion H; subst. exfalso; apply N; reflexivity.
  - intros [d [settings [-> [S V]]]]. cbn [py_get bind ret].
    rewrite S. cbn [py_get bind ret]. rewrite V. reflexivity.
Qed.

Lemma dict_version_found_iff_witness :
  UploadDictionary.get_dict_version versioned_services "dict.json"
  = Returned (py_str "1.2.0").
Proof.
  apply (dict_version_found_iff versioned_services "dict.json"
           (PDict [(SStr "_settings.yaml",
                    PDict [(SStr "_dict_version", py_str "1.2.0")])])
           (py_str "1.2.0")).
  - reflexivity.
  - discriminate.
  - eexists. eexists. split; [reflexivity|]. split; reflexivity.
Defined.



(** ** Further properties: duplicate terms *)

Lemma series_eq_trans (a b c : scalar) :
  series_eq a b = true -> series_eq b c = true -> series_eq a c = true.
Proof.
  rewrite !series_eq_true. intros [A [B E1]] [_ [C E2]].
  repeat split; congruence.
Qed.

Lemma get_enum_list_cases (df : DataFrame) (n : scalar) :
  AddEnumToDef.get_enum_list df n
  = if empty (mask_eq type_name n df) then Err (ValueError n)
    else Ok (term_list df n).
Proof.
  destruct (has_type_dec df n) as [H | H].
  - rewrite (get_enum_list_has_type _ _ H). apply has_type_mask in H.
    destruct (mask_eq type_name n df); [exfalso; apply H|]; reflexivity.
  - rewrite (get_enum_list_no_type _ _ H).
    destruct (mask_eq type_name n df) eqn:M; [reflexivity|].
    exfalso. apply H, has_type_mask. rewrite M. discriminate.
Qed.

Section SameLookups.

Variables df1 df2 : DataFrame.
Variable enum_name : scalar.
Hypothesis same_terms : term_list df1 enum_name = term_list df2 enum_name.
Hypothesis same_first :
  forall t, first_match df1 enum_name t = first_match df2 enum_name t.
Hypothesis same_presence :
  empty (mask_eq type_name enum_name df1)
  = empty (mask_eq type_name enum_name df2).

Lemma add_term_record_same_lookups (t : scalar) :
  AddEnumToDef.term_record df1 enum_name t
  = AddEnumToDef.term_record df2 enum_name t.
Proof.
  unfold AddEnumToDef.term_record, AddEnumToDef.add_field,
    AddEnumToDef.get_enum_definition, AddEnumToDef.get_enum_source,
    AddEnumToDef.get_enum_term_id.
  rewrite !add_lookup_shape, same_first, same_presence. reflexivity.
Qed.

Lemma update_term_record_same_lookups (t : scalar) :
  UpdateDefinitions.term_record df1 enum_name t
  = UpdateDefinitions.term_record df2 enum_name t.
Proof.
  unfold UpdateDefinitions.term_record, UpdateDefinitions.add_field,
    UpdateDefinitions.get_enum_definition, UpdateDefinitions.get_enum_source,
    UpdateDefinitions.get_enum_term_id.
  rewrite !update_lookup_shape, same_first. reflexivity.
Qed.

Lemma entries_same_lookups (description : pyval) :
  AddEnumToDef.construct_enum_term_yaml_entry df1 enum_name description
  = AddEnumToDef.construct_enum_term_yaml_entry df2 enum_name description
  /\ UpdateDefinitions.construct_enum_term_yaml_entry df1 enum_name
       description
     = UpdateDefinitions.construct_enum_term_yaml_entry df2 enum_name
         description.
Proof.
  unfold AddEnumToDef.construct_enum_term_yaml_entry,
    UpdateDefinitions.construct_enum_term_yaml_entry,
    AddEnumToDef.construct_enum_def, UpdateDefinitions.construct_enum_def.
  rewrite !get_enum_list_cases, !update_get_enum_list, same_terms,
    same_presence.
  split.
  - case (empty (mask_eq type_name enum_name df2)); [reflexivity|].
    cbn [bind]. unfold for_each.
    rewrite for_in_ext with
      (body2 := fun enum_term enum_def_list =>
         ret (enum_def_list
              ++ [PDict (AddEnumToDef.term_record df2 enum_name enum_term)]));
      [reflexivity|].
    intros t acc _. rewrite add_term_record_same_lookups. reflexivity.
  - cbn [bind]. unfold for_each.
    rewrite for_in_ext with
      (body2 := fun enum_term enum_def_list =>
         enumdef <- UpdateDefinitions.term_record df2 enum_name enum_term ;;
         ret (enum_def_list ++ [PDict enumdef]));
      [reflexivity|].
    intros t acc _. rewrite update_term_record_same_lookups. reflexivity.
Qed.

End SameLookups.

Lemma find_app {A} (f : A -> bool) (l1 l2 : list A) :
  find f (l1 ++ l2)
  = match find f l1 with
    | Some x => Some x
    | None => find f l2
    end.
Proof.
  induction l1 as [|x l1 IH]; simpl; [reflexivity|].
  destruct (f x); [reflexivity | exact IH].
Qed.

(** Only the first row of a (type, term) pair is ever read for metadata:
    when a row of the type stands before another row with an equal term,
    replacing the definition, source and term id of the later row by
    anything leaves the entry of the type unchanged, in both scripts. *)
Theorem later_duplicate_is_invisible (pre post : DataFrame) (r r' r0 : row)
    (enum_name : scalar) (description : pyval) :
  In r0 pre ->
  series_eq (type_name r0) enum_name = true ->
  series_eq (enum r0) (enum r) = true ->
  type_name r' = type_name r -> enum r' = enum r ->
  AddEnumToDef.construct_enum_term_yaml_entry (pre ++ r :: post) enum_name
    description
  = AddEnumToDef.construct_enum_term_yaml_entry (pre ++ r' :: post)
      enum_name description
  /\ UpdateDefinitions.construct_enum_term_yaml_entry (pre ++ r :: post)
       enum_name description
     = UpdateDefinitions.construct_enum_term_yaml_entry (pre ++ r' :: post)
         enum_name description.
Proof.
  intros H0 T0 E0 Ht He.
  apply entries_same_lookups.
  - rewrite !term_list_mask. unfold mask_eq.
    rewrite !filter_app, !map_app. simpl. rewrite Ht.
    destruct (series_eq (type_name r) enum_name); simpl;
      [rewrite He|]; reflexivity.
  - intros t. unfold first_match. rewrite !find_app.
    destruct (find _ pre) as [x|] eqn:F; [reflexivity|].
    pose proof (find_none _ _ F r0 H0) as N. simpl in N.
    rewrite T0 in N. simpl in N.
    assert (R : series_eq (enum r) t = false).
    { destruct (series_eq (enum r) t) eqn:S; [|reflexivity].
      rewrite (series_eq_trans _ _ _ E0 S) in N. discriminate. }
    simpl. rewrite Ht, He, R, !andb_false_r. reflexivity.
  - assert (P : forall x, empty (mask_eq type_name enum_name (pre ++ x :: post))
                          = false).
    { intros x. unfold mask_eq. rewrite filter_app.
      destruct (filter _ pre) as [|y l] eqn:F; [|reflexivity].
      exfalso.
      assert (In r0 (filter (fun r => series_eq (type_name r) enum_name) pre))
        by (apply filter_In; auto).
      rewrite F in H. destruct H. }
    rewrite !P. reflexivity.
Qed.

Lemma later_duplicate_is_invisible_witness :
  AddEnumToDef.construct_enum_term_yaml_entry duplicate_table (SStr "Color")
    py_None
  = AddEnumToDef.construct_enum_term_yaml_entry duplicate_table_edited
      (SStr "Color") py_None.
Proof.
  exact (proj1
           (later_duplicate_is_invisible
              [mkRow (SStr "Color") (SStr "RED") (SStr "first") SNone SNone]
              []
              (mkRow (SStr "Color") (SStr "RED") (SStr "second") SNone SNone)
              (mkRow (SStr "Color") (SStr "RED") (SStr "third")
                 (SStr "elsewhere") (SStr "T9"))
              (mkRow (SStr "Color") (SStr "RED") (SStr "first") SNone SNone)
              (SStr "Color") py_None
              (or_introl eq_refl) eq_refl eq_refl eq_refl eq_refl)).
Defined.

(** ** Further properties: what a merge does to an existing entry *)

(** A merge replaces the whole value under a type name: when no row has a
    missing type name, the value under every distinct type name is, after
    the merge, an entry whose description is None, whatever the document
    held under that key before (a description written there is lost). *)
Theorem merge_resets_description (set_iter : list scalar -> list scalar)
    (df : DataFrame) (d : dict) (x : scalar) :
  set_order set_iter -> types_present df ->
  In x (unique (map type_name df)) ->
  dict_get (fst (AddEnumToDef.merge_loop set_iter df d)) x
  = Some (PDict
            [(SStr "description", py_None);
             (SStr "enum", PList (map Atom (term_list df x)));
             (SStr "enumDef",
              PList (map (fun t => PDict (AddEnumToDef.term_record df x t))
                       (term_list df x)))]).
Proof.
  intros O P Hx.
  destruct (merge_loop_present df set_iter O P d) as [d' [M S]].
  rewrite M. simpl.
  destruct (S x Hx) as [_ [entry [C G]]]. rewrite G.
  destruct (has_type_dec df x) as [H | H].
  - rewrite (construct_entry_has_type _ _ py_None H) in C.
    inversion C; reflexivity.
  - rewrite (construct_entry_no_type _ _ py_None H) in C. discriminate.
Qed.

Lemma merge_resets_description_witness :
  dict_get
    (fst (AddEnumToDef.merge_loop unique color_table described_document))
    (SStr "Color")
  = Some color_entry.
Proof.
  apply (merge_resets_description unique color_table described_document
           (SStr "Color")).
  - intros l. apply Permutation_refl.
  - intros r [<- | [<- | []]]; reflexivity.
  - left; reflexivity.
Defined.
